(** * bot.py: the Telegram relay and its AI provider dispatch

    A shallow embedding of [src/bot.py]: the module-level provider selection,
    [start_command], [get_ai_response], [handle_message], [error_handler]
    and [main].

    Python [str] values are modelled as [string]; a character stands for one
    code point in the range U+0000..U+00FF.  Calls that leave the process
    (the two provider SDKs and the Telegram SDK) are answered by a [World],
    and every such call, like every log record, is appended to a trace. *)

From Stdlib Require Import String Ascii List ZArith Bool Lia.
From stdpp Require Import base option strings gmap.

Import ListNotations.
Open Scope string_scope.
Open Scope list_scope.
Open Scope Z_scope.

(** ** Python strings *)

Module PyStr.

Definition code (c : ascii) : N := N_of_ascii c.

(** [str.isspace] on one code point below 256. *)
Definition isspace (c : ascii) : bool :=
  let n := code c in
  ((9 <=? n) && (n <=? 13) || (28 <=? n) && (n <=? 32)
   || (n =? 133) || (n =? 160))%N.

(** Code points with a lower-case partner 32 places above them:
    A-Z, and U+00C0..U+00DE but for the multiplication sign U+00D7. *)
Definition isupper (c : ascii) : bool :=
  let n := code c in
  ((65 <=? n) && (n <=? 90)
   || (192 <=? n) && (n <=? 222) && negb (n =? 215))%N.

Definition lower_char (c : ascii) : ascii :=
  if isupper c then ascii_of_N (code c + 32) else c.

(** Upper-casing of the ASCII letters; [capitalize] is only ever applied
    to the provider name, which is ["openai"] or ["gemini"]. *)
Definition upper_char (c : ascii) : ascii :=
  let n := code c in
  if ((97 <=? n) && (n <=? 122))%N then ascii_of_N (n - 32) else c.

Fixpoint lower (s : string) : string :=
  match s with
  | EmptyString => EmptyString
  | String c s' => String (lower_char c) (lower s')
  end.

Definition capitalize (s : string) : string :=
  match s with
  | EmptyString => EmptyString
  | String c s' => String (upper_char c) (lower s')
  end.

Fixpoint lstrip (s : string) : string :=
  match s with
  | EmptyString => EmptyString
  | String c s' => if isspace c then lstrip s' else s
  end.

(** [rstrip] keeps a character when it is no white space or when
    something is kept after it. *)
Fixpoint rstrip (s : string) : string :=
  match s with
  | EmptyString => EmptyString
  | String c s' =>
      match rstrip s' with
      | EmptyString => if isspace c then EmptyString else String c EmptyString
      | r => String c r
      end
  end.

Definition strip (s : string) : string := rstrip (lstrip s).

(** The slice [s[:n]]. *)
Fixpoint take (n : nat) (s : string) : string :=
  match n, s with
  | S n', String c s' => String c (take n' s')
  | _, _ => EmptyString
  end.

(** Truth value of a string: [not s] holds for the empty one. *)
Definition truthy (s : string) : bool :=
  match s with EmptyString => false | _ => true end.

Fixpoint starts_with (p s : string) : bool :=
  match p, s with
  | EmptyString, _ => true
  | String a p', String b s' => if Ascii.eqb a b then starts_with p' s' else false
  | String _ _, EmptyString => false
  end.

(** [sub in s]. *)
Fixpoint contains (sub s : string) : bool :=
  starts_with sub s ||
  match s with
  | EmptyString => false
  | String _ s' => contains sub s'
  end.

End PyStr.

(** ** Exceptions and outcomes *)

(** A raised Python exception: whether its class derives from [Exception]
    (asyncio's cancellation and [KeyboardInterrupt] do not), and [str(e)]. *)
Record PyExc : Type := mkExc {
  is_Exception : bool;
  exc_str : string
}.

Definition IndexError : PyExc :=
  mkExc true "list index out of range".
Definition AttributeError : PyExc :=
  mkExc true "'NoneType' object has no attribute 'strip'".

(** [await x] on an [x] that is no awaitable. *)
Definition TypeError : PyExc :=
  mkExc true "object ChatCompletion can't be used in 'await' expression".

(** [.name] on a block reason that is a plain [int]. *)
Definition AttributeError_name : PyExc :=
  mkExc true "'int' object has no attribute 'name'".

(** [update.message.text], [update.message.reply_html] and
    [user.mention_html] when the object before the dot is [None]. *)
Definition AttributeError_text : PyExc :=
  mkExc true "'NoneType' object has no attribute 'text'".
Definition AttributeError_reply_html : PyExc :=
  mkExc true "'NoneType' object has no attribute 'reply_html'".
Definition AttributeError_mention_html : PyExc :=
  mkExc true "'NoneType' object has no attribute 'mention_html'".

Inductive Outcome (A : Type) : Type :=
| Returned (a : A)
| Raised (e : PyExc).
Arguments Returned {A} a.
Arguments Raised {A} e.

(** ** Module-level code: provider selection and the bot token *)

Inductive Provider : Type := openai | gemini.

Definition provider_name (p : Provider) : string :=
  match p with openai => "openai" | gemini => "gemini" end.

(** What the interpreter finds when the module is loaded: the environment
    after [load_dotenv()], and which provider libraries can be imported. *)
Record Host : Type := mkHost {
  environ : gmap string string;
  openai_installed : bool;
  genai_installed : bool
}.

Definition getenv (h : Host) (key : string) : option string :=
  environ h !! key.

Definition getenv_default (h : Host) (key default : string) : string :=
  match environ h !! key with
  | Some v => v
  | None => default
  end.

(** The module globals that the handlers read. *)
Record Config : Type := mkConfig {
  AI_PROVIDER : Provider;
  MODEL : string;
  API_KEY : string;
  TELEGRAM_BOT_TOKEN : string
}.

(** Loading the module either reaches [exit()] or leaves the globals set;
    both carry the lines printed so far. *)
Inductive Load : Type :=
| Exited (printed : list string)
| Loaded (cfg : Config) (printed : list string).

(** [if not key]: the variable is unset or empty. *)
Definition key_missing (k : option string) : bool :=
  match k with
  | Some v => negb (PyStr.truthy v)
  | None => true
  end.

Definition token_check (h : Host) (p : Provider) (model key : string)
    (printed : list string) : Load :=
  match getenv h "TELEGRAM_BOT_TOKEN" with
  | Some tok =>
      if PyStr.truthy tok
      then Loaded (mkConfig p model key tok) printed
      else Exited (printed ++ ["Error: TELEGRAM_BOT_TOKEN not found in .env file."])
  | None => Exited (printed ++ ["Error: TELEGRAM_BOT_TOKEN not found in .env file."])
  end.

(** [os.getenv("AI_PROVIDER", "openai").lower()]. *)
Definition selected_provider (h : Host) : string :=
  PyStr.lower (getenv_default h "AI_PROVIDER" "openai").

Definition module_level (h : Host) : Load :=
  let provider := selected_provider h in
  if String.eqb provider "openai" then
    if negb (openai_installed h) then
      Exited ["OpenAI library not installed. Please run: pip install openai"]
    else
      match getenv h "OPENAI_API_KEY" with
      | Some key =>
          if PyStr.truthy key then
            let model := getenv_default h "OPENAI_MODEL" "gpt-3.5-turbo" in
            token_check h openai model key
              ["Using AI Provider: OpenAI (Model: " +:+ model +:+ ")"]
          else Exited ["OPENAI_API_KEY not found in .env file."]
      | None => Exited ["OPENAI_API_KEY not found in .env file."]
      end
  else if String.eqb provider "gemini" then
    if negb (genai_installed h) then
      Exited ["Google Generative AI library not installed. Please run: pip install google-generativeai"]
    else
      match getenv h "GOOGLE_API_KEY" with
      | Some key =>
          if PyStr.truthy key then
            let model := getenv_default h "GEMINI_MODEL" "gemini-pro" in
            token_check h gemini model key
              ["Using AI Provider: Google Gemini (Model: " +:+ model +:+ ")"]
          else Exited ["GOOGLE_API_KEY not found in .env file for Gemini."]
      | None => Exited ["GOOGLE_API_KEY not found in .env file for Gemini."]
      end
  else
    Exited ["Error: Invalid AI_PROVIDER specified in .env: " +:+ provider
            +:+ ". Choose 'openai' or 'gemini'."].

(** ** Provider responses *)

(** [response.choices[0].message.content] of a chat completion;
    the content may be [None]. *)
Record ChatMessage : Type := mkChatMessage { content : option string }.
Record Choice : Type := mkChoice { message : ChatMessage }.
Record ChatCompletion : Type := mkChatCompletion { choices : list Choice }.

(** A Gemini reply.  An attribute probed with [hasattr] is optional.  A
    block reason carries its integer value, which decides its truth value;
    it has a [name] when it is a member of the SDK's enum, and none when
    the SDK hands over a value it does not know as a plain [int]. *)
Record Part : Type := mkPart { text : string }.
Record Content : Type := mkContent { parts : option (list Part) }.
Record Candidate : Type := mkCandidate { cand_content : option Content }.
Record BlockReason : Type := mkBlockReason { value : Z; name : option string }.
Record PromptFeedback : Type := mkPromptFeedback { block_reason : BlockReason }.
Record GenerateContentResponse : Type := mkGenerateContentResponse {
  candidates : list Candidate;
  prompt_feedback : option PromptFeedback
}.

Definition enum_truthy (b : BlockReason) : bool := negb (value b =? 0).

(** An inbound update whose [update.message] is set:
    [update.message.text] and [update.effective_chat.id]. *)
Record Update : Type := mkUpdate {
  message_text : option string;
  effective_chat_id : Z
}.

(** ** Effects: the trace and the world *)

Inductive Level : Type := INFO | WARNING | ERROR.

(** What the process does that can be observed from outside.  [Typing] and
    [Reply] record a call of the Telegram SDK and whether it went through. *)
Inductive Event : Type :=
| Log (lvl : Level) (msg : string)
| Typing (chat_id : Z) (ok : bool)
| AskOpenAI (model user_text : string)
| AskGemini (user_text : string)
| Reply (body : string) (ok : bool).

(** The answers of the outside world; each may depend on everything that
    happened before the call.  The last two fields are the SDKs' renderings
    of a candidate and of an update inside log lines. *)
Record World : Type := mkWorld {
  send_chat_action : list Event -> Z -> Outcome unit;
  chat_completions_create : list Event -> string -> string -> Outcome ChatCompletion;
  generate_content_async : list Event -> string -> Outcome GenerateContentResponse;
  reply_text : list Event -> string -> Outcome unit;
  candidate_str : Candidate -> string;
  update_str : Update -> string
}.

Definition succeeded {A : Type} (r : Outcome A) : bool :=
  match r with Returned _ => true | Raised _ => false end.

(** Computations that read the world, extend the trace and may raise. *)
Definition M (A : Type) : Type := World -> list Event -> Outcome A * list Event.

Definition ret {A : Type} (a : A) : M A := fun _ t => (Returned a, t).

Definition raise {A : Type} (e : PyExc) : M A := fun _ t => (Raised e, t).

Definition bind {A B : Type} (m : M A) (k : A -> M B) : M B :=
  fun w t =>
    match m w t with
    | (Returned a, t') => k a w t'
    | (Raised e, t') => (Raised e, t')
    end.

Notation "x <- m ;; k" := (bind m (fun x => k))
  (at level 100, m at next level, right associativity).
Notation "m ;; k" := (bind m (fun _ => k))
  (at level 100, right associativity).

(** [try: body  except Exception as e: handler e]. *)
Definition try_except {A : Type} (body : M A) (handler : PyExc -> M A) : M A :=
  fun w t =>
    match body w t with
    | (Returned a, t') => (Returned a, t')
    | (Raised e, t') =>
        if is_Exception e then handler e w t' else (Raised e, t')
    end.

Definition emit (ev : Event) : M unit := fun _ t => (Returned tt, t ++ [ev]).

Definition logger_info (msg : string) : M unit := emit (Log INFO msg).
Definition logger_warning (msg : string) : M unit := emit (Log WARNING msg).
Definition logger_error (msg : string) : M unit := emit (Log ERROR msg).

Definition await_send_chat_action (chat_id : Z) : M unit :=
  fun w t =>
    let r := send_chat_action w t chat_id in
    (r, t ++ [Typing chat_id (succeeded r)]).

Definition await_reply_text (body : string) : M unit :=
  fun w t =>
    let r := reply_text w t body in
    (r, t ++ [Reply body (succeeded r)]).

(** [openai_client.chat.completions.create(model=..., messages=[user])].
    The client is the one the module builds, [openai.OpenAI(...)], whose
    [create] blocks and hands back the completion itself or raises. *)
Definition chat_completions_create_call (model user_message : string)
    : M ChatCompletion :=
  fun w t =>
    (chat_completions_create w t model user_message,
     t ++ [AskOpenAI model user_message]).

(** [await x] for an [x] that is no awaitable, as a completion is. *)
Definition await_plain_object {A : Type} (x : A) : M A := raise TypeError.

(** [await openai_client.chat.completions.create(...)]: the call, then
    [await] on what it returned. *)
Definition await_chat_completions_create (model user_message : string)
    : M ChatCompletion :=
  response <- chat_completions_create_call model user_message ;;
  await_plain_object response.

Definition await_generate_content_async (user_message : string)
    : M GenerateContentResponse :=
  fun w t =>
    (generate_content_async w t user_message, t ++ [AskGemini user_message]).

Definition the_candidate_str (c : Candidate) : M string :=
  fun w t => (Returned (candidate_str w c), t).

Definition the_update_str (u : Update) : M string :=
  fun w t => (Returned (update_str w u), t).

(** ** get_ai_response *)

Definition couldnt_generate : string :=
  "Sorry, I couldn't generate a text response from that.".

Definition empty_response : string :=
  "Sorry, I received an empty response from the AI.".

Definition blocked_message (reason_name : string) : string :=
  "My response was blocked due to: " +:+ reason_name
  +:+ ". Please rephrase your request.".

Definition apology (cfg : Config) : string :=
  "Sorry, I encountered an error trying to reach the AI ("
  +:+ PyStr.capitalize (provider_name (AI_PROVIDER cfg))
  +:+ "). Please try again later.".

Definition sending_line (cfg : Config) (user_message : string) : string :=
  "Sending to AI (" +:+ provider_name (AI_PROVIDER cfg) +:+ "): "
  +:+ PyStr.take 50 user_message +:+ "...".

Definition response_line (cfg : Config) (ai_response : string) : string :=
  "AI Response (" +:+ provider_name (AI_PROVIDER cfg) +:+ "): "
  +:+ PyStr.take 50 ai_response +:+ "...".

(** [response.choices[0].message.content.strip()], the line after the
    [await]. *)
Definition openai_text (response : ChatCompletion) : M string :=
  match choices response with
  | [] => raise IndexError
  | c0 :: _ =>
      match content (message c0) with
      | None => raise AttributeError
      | Some s => ret (PyStr.strip s)
      end
  end.

(** The parts of a candidate when [hasattr(c, 'content')],
    [hasattr(c.content, 'parts')] and [c.content.parts] all hold. *)
Definition text_parts (c : Candidate) : option (list Part) :=
  match cand_content c with
  | Some ct =>
      match parts ct with
      | Some (p0 :: ps) => Some (p0 :: ps)
      | Some [] => None
      | None => None
      end
  | None => None
  end.

(** [response.prompt_feedback and response.prompt_feedback.block_reason]:
    the block reason when that conjunction holds. *)
Definition block_reason_of (response : GenerateContentResponse)
    : option BlockReason :=
  match prompt_feedback response with
  | Some pf =>
      if enum_truthy (block_reason pf) then Some (block_reason pf) else None
  | None => None
  end.

Definition gemini_text (response : GenerateContentResponse) : M string :=
  match candidates response with
  | c0 :: _ =>
      match text_parts c0 with
      | Some (p0 :: _) => ret (text p0)
      | _ =>
          shown <- the_candidate_str c0 ;;
          logger_warning ("Gemini response structure unexpected or empty: " +:+ shown) ;;
          ret couldnt_generate
      end
  | [] =>
      match block_reason_of response with
      | Some reason =>
          match name reason with
          | Some reason_name =>
              logger_warning ("Gemini request blocked: " +:+ reason_name) ;;
              ret (blocked_message reason_name)
          | None => raise AttributeError_name
          end
      | None =>
          logger_warning "Gemini returned no candidates and no block reason." ;;
          ret empty_response
      end
  end.

Definition get_ai_response (cfg : Config) (user_message : string) : M string :=
  logger_info (sending_line cfg user_message) ;;
  try_except
    (ai_response <-
       match AI_PROVIDER cfg with
       | openai =>
           response <- await_chat_completions_create (MODEL cfg) user_message ;;
           openai_text response
       | gemini =>
           response <- await_generate_content_async user_message ;;
           gemini_text response
       end ;;
     logger_info (response_line cfg ai_response) ;;
     ret ai_response)
    (fun e =>
       logger_error ("Error calling " +:+ PyStr.capitalize (provider_name (AI_PROVIDER cfg))
                     +:+ " API: " +:+ exc_str e) ;;
       ret (apology cfg)).

(** ** handle_message, error_handler, main *)

Definition send_failed_text : string :=
  "Sorry, I couldn't send the response back. Please try again.".

(** The handler on an update that has a message; [handle_routed] below
    adds the update that has none. *)
Definition handle_message (cfg : Config) (update : Update) : M unit :=
  let user_message := message_text update in
  let chat_id := effective_chat_id update in
  match user_message with
  | None => ret tt
  | Some um =>
      if negb (PyStr.truthy um) then ret tt
      else
        await_send_chat_action chat_id ;;
        ai_response <- get_ai_response cfg um ;;
        try_except
          (await_reply_text ai_response)
          (fun e =>
             logger_error ("Error sending message back to Telegram: " +:+ exc_str e) ;;
             await_reply_text send_failed_text)
  end.

Definition error_handler (update : Update) (error : PyExc) : M unit :=
  shown <- the_update_str update ;;
  logger_error ("Update " +:+ shown +:+ " caused error " +:+ exc_str error).

(** The application calls the handler on an update and passes what the
    handler raises to the registered error handler. *)
Definition process_update (cfg : Config) (update : Update) : M unit :=
  try_except (handle_message cfg update) (error_handler update).

Fixpoint run_polling (cfg : Config) (inbound : list Update) : M unit :=
  match inbound with
  | [] => ret tt
  | u :: rest => process_update cfg u ;; run_polling cfg rest
  end.

(** [inbound]: the text updates that the filter routes to [handle_message]
    and that have a message; [run] below takes every routed update. *)
Definition main (cfg : Config) (inbound : list Update) : M unit :=
  logger_info "Starting bot polling..." ;;
  run_polling cfg inbound.

(** The whole script: what is printed and the trace of the run.  [main()]
    is only reached when the module-level code did not exit. *)
Definition bot_py (h : Host) (w : World) (inbound : list Update)
    : list string * list Event :=
  match module_level h with
  | Exited printed => (printed, [])
  | Loaded cfg printed => (printed, snd (main cfg inbound w []))
  end.

(** ** Reading a trace *)

Definition delivered (t : list Event) : list string :=
  flat_map (fun ev => match ev with Reply b true => [b] | _ => [] end) t.

Definition attempted (t : list Event) : list string :=
  flat_map (fun ev => match ev with Reply b _ => [b] | _ => [] end) t.

Definition typing_calls (t : list Event) : list Z :=
  flat_map (fun ev => match ev with Typing c _ => [c] | _ => [] end) t.

Definition provider_calls (t : list Event) : list string :=
  flat_map (fun ev =>
    match ev with AskOpenAI _ u => [u] | AskGemini u => [u] | _ => [] end) t.

Definition logged (lvl : Level) (t : list Event) : list string :=
  flat_map (fun ev =>
    match ev, lvl with
    | Log INFO m, INFO => [m]
    | Log WARNING m, WARNING => [m]
    | Log ERROR m, ERROR => [m]
    | _, _ => []
    end) t.

(** The provider call as [get_ai_response] makes it: after its first log
    line. *)
Definition openai_call (cfg : Config) (w : World) (t : list Event)
    (user_message : string) : Outcome ChatCompletion :=
  chat_completions_create w (t ++ [Log INFO (sending_line cfg user_message)])
    (MODEL cfg) user_message.

Definition gemini_call (cfg : Config) (w : World) (t : list Event)
    (user_message : string) : Outcome GenerateContentResponse :=
  generate_content_async w (t ++ [Log INFO (sending_line cfg user_message)])
    user_message.

(** [response.candidates[0].content.parts[0].text], when there is one. *)
Definition first_part_text (r : GenerateContentResponse) : option string :=
  match candidates r with
  | c0 :: _ =>
      match text_parts c0 with
      | Some (p0 :: _) => Some (text p0)
      | _ => None
      end
  | [] => None
  end.

(** The exception with which the provider call ends, if it raises. *)
Definition provider_error (cfg : Config) (w : World) (t : list Event)
    (user_message : string) : option PyExc :=
  match AI_PROVIDER cfg with
  | openai =>
      match openai_call cfg w t user_message with
      | Returned _ => None
      | Raised e => Some e
      end
  | gemini =>
      match gemini_call cfg w t user_message with
      | Returned _ => None
      | Raised e => Some e
      end
  end.

(** A string made of white space only. *)
Fixpoint all_space (s : string) : bool :=
  match s with
  | EmptyString => true
  | String c s' => PyStr.isspace c && all_space s'
  end.

(** The string that [get_ai_response] gives for a Gemini reply [r], branch
    by branch; the branch that raises ends in the apology. *)
Definition gemini_reply (cfg : Config) (r : GenerateContentResponse) : string :=
  match first_part_text r with
  | Some s => s
  | None =>
      match candidates r with
      | _ :: _ => couldnt_generate
      | [] =>
          match block_reason_of r with
          | Some reason =>
              match name reason with
              | Some reason_name => blocked_message reason_name
              | None => apology cfg
              end
          | None => empty_response
          end
      end
  end.

(** ** Sample hosts, configurations and worlds *)

Module Sample.

Definition NetworkError : PyExc := mkExc true "Timed out".
Definition CancelledError : PyExc := mkExc false "".

Definition SAFETY : BlockReason := mkBlockReason 1 (Some "SAFETY").
Definition BLOCK_REASON_UNSPECIFIED : BlockReason :=
  mkBlockReason 0 (Some "BLOCK_REASON_UNSPECIFIED").
(** A value the SDK's enum does not know. *)
Definition UNKNOWN_REASON : BlockReason := mkBlockReason 7 None.

Definition cfg_openai : Config := mkConfig openai "gpt-3.5-turbo" "sk-test" "123:abc".
Definition cfg_gemini : Config := mkConfig gemini "gemini-pro" "g-test" "123:abc".

Definition completion (s : string) : ChatCompletion :=
  mkChatCompletion [mkChoice (mkChatMessage (Some s))].

Definition candidate (s : string) : Candidate :=
  mkCandidate (Some (mkContent (Some [mkPart s]))).

(** A world given by the outcome of the typing call, of either provider
    call, and of the n-th [reply_text] call of the run. *)
Definition world (typing : Outcome unit) (oa : Outcome ChatCompletion)
    (gm : Outcome GenerateContentResponse) (replies : nat -> Outcome unit)
    : World :=
  mkWorld (fun _ _ => typing) (fun _ _ _ => oa) (fun _ _ => gm)
          (fun t _ => replies (length (attempted t)))
          (fun _ => "<candidate>") (fun _ => "<update>").

Definition all_ok : nat -> Outcome unit := fun _ => Returned tt.
Definition all_fail : nat -> Outcome unit := fun _ => Raised NetworkError.
Definition first_fails : nat -> Outcome unit :=
  fun n => match n with O => Raised NetworkError | S _ => Returned tt end.

Definition gemini_world (r : GenerateContentResponse)
    (replies : nat -> Outcome unit) : World :=
  world (Returned tt) (Raised NetworkError) (Returned r) replies.

Definition openai_world (r : Outcome ChatCompletion)
    (replies : nat -> Outcome unit) : World :=
  world (Returned tt) r (Raised NetworkError) replies.

Definition update (s : string) : Update := mkUpdate (Some s) 42.

Definition host (vars : list (string * string)) : Host :=
  mkHost (list_to_map vars) true true.

End Sample.

(** ** start_command *)

Definition nl : string := String "010"%char EmptyString.

(** The text of the greeting; [mention] is what
    [update.effective_user.mention_html()] gives. *)
Definition greeting (cfg : Config) (mention : string) : string :=
  "Hi " +:+ mention +:+ "!" +:+ nl +:+ nl
  +:+ "I'm an AI chat bot powered by "
  +:+ PyStr.capitalize (provider_name (AI_PROVIDER cfg)) +:+ "." +:+ nl +:+ nl
  +:+ "Just send me any message, and I'll do my best to respond. "
  +:+ "I can handle short questions or longer discussions." +:+ nl +:+ nl
  +:+ "Let's chat!".

(** [await update.message.reply_html(body)], answered by [reply_html]; the
    call is recorded as a reply. *)
Definition await_reply_html (reply_html : list Event -> string -> Outcome unit)
    (body : string) : M unit :=
  fun _ t =>
    let r := reply_html t body in
    (r, t ++ [Reply body (succeeded r)]).

(** A routed /start update: whether [update.message] is set, and what
    [update.effective_user.mention_html()] gives when there is a user. *)
Record StartUpdate : Type := mkStartUpdate {
  start_has_message : bool;
  start_mention : option string
}.

(** The callee [update.message.reply_html] is looked up first, then the
    argument is built, then the call is made. *)
Definition start_command (cfg : Config) (update : StartUpdate)
    (reply_html : list Event -> string -> Outcome unit) : M unit :=
  if negb (start_has_message update) then raise AttributeError_reply_html
  else
    match start_mention update with
    | None => raise AttributeError_mention_html
    | Some mention => await_reply_html reply_html (greeting cfg mention)
    end.

(** ** The updates the application routes *)

(** The message filter is applied to the effective message of an update.
    That is [update.message], or, for an edited message or a channel post,
    a message that leaves [update.message] unset; the record then
    describes that message. *)
Inductive Routed : Type :=
| WithMessage (u : Update)
| WithoutMessage (u : Update).

Definition routed_update (x : Routed) : Update :=
  match x with WithMessage u => u | WithoutMessage u => u end.

(** [handle_message] on any routed update: without [update.message] its
    first line, which reads [update.message.text], raises. *)
Definition handle_routed (cfg : Config) (x : Routed) : M unit :=
  match x with
  | WithMessage u => handle_message cfg u
  | WithoutMessage _ => raise AttributeError_text
  end.

Definition process_routed (cfg : Config) (x : Routed) : M unit :=
  try_except (handle_routed cfg x) (error_handler (routed_update x)).

Fixpoint poll (cfg : Config) (inbound : list Routed) : M unit :=
  match inbound with
  | [] => ret tt
  | x :: rest => process_routed cfg x ;; poll cfg rest
  end.

(** [main()] over everything the filter routes. *)
Definition run (cfg : Config) (inbound : list Routed) : M unit :=
  logger_info "Starting bot polling..." ;;
  poll cfg inbound.

(** ** Reading hosts, updates and traces *)

(** The host with one environment variable set. *)
Definition setenv (h : Host) (key v : string) : Host :=
  mkHost (<[key := v]> (environ h)) (openai_installed h) (genai_installed h).

(** An update that [handle_message] does not drop. *)
Definition has_text (u : Update) : bool :=
  match message_text u with
  | Some s => PyStr.truthy s
  | None => false
  end.

(** A routed update that [handle_message] takes up: it has a message and
    the message has a text. *)
Definition taken_up (x : Routed) : bool :=
  match x with
  | WithMessage u => has_text u
  | WithoutMessage _ => false
  end.

(** A log record, as opposed to a call that leaves the process. *)
Definition is_log (ev : Event) : bool :=
  match ev with Log _ _ => true | _ => false end.

(** The provider call of [get_ai_response] as the trace records it. *)
Definition ask_event (cfg : Config) (user_message : string) : Event :=
  match AI_PROVIDER cfg with
  | openai => AskOpenAI (MODEL cfg) user_message
  | gemini => AskGemini user_message
  end.

(** A world in which no call raises outside [Exception]: no cancellation,
    no interrupt. *)
Definition raises_only_Exceptions (w : World) : Prop :=
  (forall t c e, send_chat_action w t c = Raised e -> is_Exception e = true)
  /\ (forall t model m e,
        chat_completions_create w t model m = Raised e -> is_Exception e = true)
  /\ (forall t m e,
        generate_content_async w t m = Raised e -> is_Exception e = true)
  /\ (forall t body e, reply_text w t body = Raised e -> is_Exception e = true).

(** * Properties *)

Ltac unfold_m :=
  unfold get_ai_response, openai_text, gemini_text,
    await_chat_completions_create, chat_completions_create_call,
    await_plain_object, bind, try_except,
    logger_info, logger_warning, logger_error, emit, ret, raise,
    await_generate_content_async,
    await_send_chat_action, await_reply_text, the_candidate_str,
    the_update_str.

(** ** Strings *)

Lemma append_cons (c : ascii) (s x : string) :
  String c s +:+ x = String c (s +:+ x).
Proof. reflexivity. Qed.

Lemma append_nil (x : string) : "" +:+ x = x.
Proof. reflexivity. Qed.

Lemma starts_with_append (p s : string) : PyStr.starts_with p (p +:+ s) = true.
Proof.
  induction p as [|c p IH]; [reflexivity|].
  rewrite append_cons. simpl. now rewrite Ascii.eqb_refl.
Qed.

Lemma contains_append (pre sub post : string) :
  PyStr.contains sub (pre +:+ sub +:+ post) = true.
Proof.
  induction pre as [|c pre IH].
  - rewrite append_nil.
    destruct (sub +:+ post) eqn:E; simpl; rewrite <- E, starts_with_append;
      reflexivity.
  - rewrite append_cons. cbn [PyStr.contains]. rewrite IH. apply orb_true_r.
Qed.

Lemma lstrip_no_leading_space (s : string) (c : ascii) (r : string) :
  PyStr.lstrip s = String c r -> PyStr.isspace c = false.
Proof.
  induction s as [|a s IH]; simpl; [discriminate|].
  destruct (PyStr.isspace a) eqn:E; [exact IH|].
  intros H. injection H as -> _. exact E.
Qed.

Lemma rstrip_head (s : string) (c : ascii) (r : string) :
  PyStr.rstrip s = String c r -> exists s', s = String c s'.
Proof.
  destruct s as [|a s]; simpl; [discriminate|].
  destruct (PyStr.rstrip s); [destruct (PyStr.isspace a)|]; intros H;
    try discriminate; injection H as -> _; eauto.
Qed.

(** What [strip] returns never starts with white space. *)
Lemma strip_no_leading_space (s : string) (c : ascii) (r : string) :
  PyStr.strip s = String c r -> PyStr.isspace c = false.
Proof.
  unfold PyStr.strip. intros H.
  destruct (rstrip_head _ _ _ H) as [s' Hs'].
  exact (lstrip_no_leading_space _ _ _ Hs').
Qed.

Lemma rstrip_no_trailing_space (s x : string) (c : ascii) :
  PyStr.rstrip s = x +:+ String c "" -> PyStr.isspace c = false.
Proof.
  revert x. induction s as [|a s IH]; intros x; simpl.
  - destruct x; discriminate.
  - destruct (PyStr.rstrip s) as [|b q] eqn:E.
    + destruct (PyStr.isspace a) eqn:Ea; [destruct x; discriminate|].
      destruct x as [|d x]; [|destruct x; discriminate].
      rewrite append_nil. intros H. injection H as <-. exact Ea.
    + destruct x as [|d x]; [discriminate|].
      rewrite append_cons. intros H. injection H as _ H. exact (IH x H).
Qed.

(** What [strip] returns never ends with white space. *)
Lemma strip_no_trailing_space (s x : string) (c : ascii) :
  PyStr.strip s = x +:+ String c "" -> PyStr.isspace c = false.
Proof. unfold PyStr.strip. apply rstrip_no_trailing_space. Qed.

Lemma rstrip_idem (s : string) : PyStr.rstrip (PyStr.rstrip s) = PyStr.rstrip s.
Proof.
  induction s as [|a s IH]; simpl; [reflexivity|].
  destruct (PyStr.rstrip s) as [|b r] eqn:E.
  - destruct (PyStr.isspace a) eqn:Ea; simpl; [reflexivity|]. now rewrite Ea.
  - simpl in IH |- *. now rewrite IH.
Qed.

(** Stripping drops white space only: the input is the result between two
    runs of white space. *)
Lemma lstrip_split (s : string) :
  exists l, s = l +:+ PyStr.lstrip s /\ all_space l = true.
Proof.
  induction s as [|a s [l [Hl Hs]]]; simpl.
  - exists "". split; reflexivity.
  - destruct (PyStr.isspace a) eqn:E.
    + exists (String a l). rewrite append_cons, <- Hl. simpl. rewrite E, Hs.
      split; reflexivity.
    + exists "". split; reflexivity.
Qed.

Lemma rstrip_split (s : string) :
  exists r, s = PyStr.rstrip s +:+ r /\ all_space r = true.
Proof.
  induction s as [|a s [r [Hr Hs]]]; simpl.
  - exists "". split; reflexivity.
  - destruct (PyStr.rstrip s) as [|b q] eqn:E.
    + rewrite append_nil in Hr. subst r.
      destruct (PyStr.isspace a) eqn:Ea.
      * exists (String a s). rewrite append_nil. simpl. rewrite Ea, Hs.
        split; reflexivity.
      * exists s. split; [reflexivity|exact Hs].
    + exists r. split; [|exact Hs]. rewrite append_cons. now rewrite <- Hr.
Qed.

Lemma strip_split (s : string) :
  exists l r, s = l +:+ PyStr.strip s +:+ r
              /\ all_space l = true /\ all_space r = true.
Proof.
  destruct (lstrip_split s) as [l [Hl Hls]].
  destruct (rstrip_split (PyStr.lstrip s)) as [r [Hr Hrs]].
  exists l, r. unfold PyStr.strip. rewrite <- Hr. auto.
Qed.

Lemma apology_not_empty (cfg : Config) : apology cfg <> "".
Proof. unfold apology. discriminate. Qed.

Lemma blocked_message_not_empty (reason_name : string) :
  blocked_message reason_name <> "".
Proof. unfold blocked_message. discriminate. Qed.

(** ** The block-reason test *)

Lemma block_reason_of_None (r : GenerateContentResponse) :
  block_reason_of r = None <->
  prompt_feedback r = None \/
  exists pf, prompt_feedback r = Some pf /\ value (block_reason pf) = 0.
Proof.
  unfold block_reason_of, enum_truthy. split.
  - destruct (prompt_feedback r) as [pf|]; [|now left].
    destruct (Z.eqb_spec (value (block_reason pf)) 0); simpl; [|discriminate].
    intros _. right. eauto.
  - intros [-> | [pf [-> Hv]]]; [reflexivity|].
    rewrite Hv. reflexivity.
Qed.

Lemma block_reason_of_Some (r : GenerateContentResponse) (reason : BlockReason) :
  block_reason_of r = Some reason <->
  exists pf, prompt_feedback r = Some pf /\ block_reason pf = reason
             /\ value reason <> 0.
Proof.
  unfold block_reason_of, enum_truthy. split.
  - destruct (prompt_feedback r) as [pf|]; [|discriminate].
    destruct (Z.eqb_spec (value (block_reason pf)) 0); simpl; [discriminate|].
    intros H. injection H as <-. eauto.
  - intros [pf [-> [<- Hv]]].
    destruct (Z.eqb_spec (value (block_reason pf)) 0); simpl; [contradiction|].
    reflexivity.
Qed.

(** ** get_ai_response *)

Lemma get_ai_response_gemini (cfg : Config) (w : World) (t : list Event)
    (m : string) (r : GenerateContentResponse) :
  AI_PROVIDER cfg = gemini ->
  gemini_call cfg w t m = Returned r ->
  fst (get_ai_response cfg m w t) = Returned (gemini_reply cfg r).
Proof.
  intros Hp Hc. unfold gemini_call in Hc.
  unfold gemini_reply, first_part_text. unfold_m. rewrite Hp, Hc.
  destruct (candidates r) as [|c0 rest].
  - destruct (block_reason_of r) as [reason|]; [|reflexivity].
    destruct (name reason); reflexivity.
  - destruct (text_parts c0) as [[|p0 ps]|]; reflexivity.
Qed.

(** With the OpenAI provider an answered call is lost: [await] on the
    completion raises, the error is caught and logged, and the apology is
    returned whatever the completion holds. *)
Lemma get_ai_response_openai (cfg : Config) (w : World) (t : list Event)
    (m : string) (r : ChatCompletion) :
  AI_PROVIDER cfg = openai ->
  openai_call cfg w t m = Returned r ->
  get_ai_response cfg m w t
  = (Returned (apology cfg),
     t ++ [Log INFO (sending_line cfg m);
           AskOpenAI (MODEL cfg) m;
           Log ERROR ("Error calling Openai API: " +:+ exc_str TypeError)]).
Proof.
  intros Hp Hc. unfold openai_call in Hc.
  unfold_m. unfold apology. rewrite Hp, Hc. cbn.
  rewrite <- !app_assoc. reflexivity.
Qed.

(** A provider call that raises an [Exception] ends in the apology, and the
    error is logged with the provider's name. *)
Lemma get_ai_response_caught (cfg : Config) (w : World) (t : list Event)
    (m : string) (e : PyExc) :
  provider_error cfg w t m = Some e ->
  is_Exception e = true ->
  fst (get_ai_response cfg m w t) = Returned (apology cfg)
  /\ In (Log ERROR ("Error calling "
                    +:+ PyStr.capitalize (provider_name (AI_PROVIDER cfg))
                    +:+ " API: " +:+ exc_str e))
        (snd (get_ai_response cfg m w t)).
Proof.
  unfold provider_error, openai_call, gemini_call. unfold_m.
  intros He Hex.
  destruct (AI_PROVIDER cfg).
  - destruct (chat_completions_create w _ (MODEL cfg) m) as [r|e']; [discriminate|].
    injection He as ->. rewrite Hex. simpl. split; [reflexivity|].
    apply in_or_app. right. now left.
  - destruct (generate_content_async w _ m) as [r|e']; [discriminate|].
    injection He as ->. rewrite Hex. simpl. split; [reflexivity|].
    apply in_or_app. right. now left.
Qed.

(** An exception outside [Exception] passes through. *)
Lemma get_ai_response_uncaught (cfg : Config) (w : World) (t : list Event)
    (m : string) (e : PyExc) :
  provider_error cfg w t m = Some e ->
  is_Exception e = false ->
  fst (get_ai_response cfg m w t) = Raised e.
Proof.
  unfold provider_error, openai_call, gemini_call. unfold_m.
  intros He Hex.
  destruct (AI_PROVIDER cfg).
  - destruct (chat_completions_create w _ (MODEL cfg) m) as [r|e']; [discriminate|].
    injection He as ->. now rewrite Hex.
  - destruct (generate_content_async w _ m) as [r|e']; [discriminate|].
    injection He as ->. now rewrite Hex.
Qed.

(** [get_ai_response] only adds to the trace, and what it adds holds no
    Telegram call. *)
Lemma get_ai_response_trace (cfg : Config) (w : World) (t : list Event) (m : string) :
  exists new, snd (get_ai_response cfg m w t) = t ++ new
              /\ attempted new = [] /\ delivered new = []
              /\ typing_calls new = [].
Proof.
  unfold_m.
  destruct (AI_PROVIDER cfg).
  - destruct (chat_completions_create w _ (MODEL cfg) m) as [r|e].
    + simpl. rewrite <- !app_assoc. eexists. split; [reflexivity|]. repeat split.
    + destruct (is_Exception e); simpl; rewrite <- !app_assoc;
        eexists; (split; [reflexivity|]); repeat split.
  - destruct (generate_content_async w _ m) as [r|e].
    + destruct (candidates r) as [|c0 rest].
      * destruct (block_reason_of r) as [b|]; [destruct (name b)|]; simpl;
          rewrite <- ?app_assoc; eexists; (split; [reflexivity|]); repeat split.
      * destruct (text_parts c0) as [[|p0 ps]|]; simpl; rewrite <- !app_assoc;
          eexists; (split; [reflexivity|]); repeat split.
    + destruct (is_Exception e); simpl; rewrite <- !app_assoc;
        eexists; (split; [reflexivity|]); repeat split.
Qed.

(** C1 fails on the code: the first part's text is handed on unchecked,
    although the test before it is meant to see that the parts "have text"
    and the branch beside it answers with a fixed message.  Here the text
    ["hi"] is answered by Gemini with one candidate whose first part is the
    empty string, and [get_ai_response] returns the empty string. *)
Lemma get_ai_response_empty_reply :
  PyStr.truthy "hi" = true
  /\ fst (get_ai_response Sample.cfg_gemini "hi"
            (Sample.gemini_world
               (mkGenerateContentResponse [Sample.candidate ""] None)
               Sample.all_ok) [])
     = Returned "".
Proof. split; reflexivity. Qed.

(** C2: with the Gemini provider and a reply that has a candidate, the
    result is the text of the first part when the candidate has a content
    with a non-empty list of parts, the fixed "couldn't generate" string
    when it has not, and so always one of the two. *)
Theorem gemini_candidate_reply (cfg : Config) (w : World) (t : list Event)
    (user_message : string) (r : GenerateContentResponse)
    (c0 : Candidate) (rest : list Candidate) :
  AI_PROVIDER cfg = gemini ->
  gemini_call cfg w t user_message = Returned r ->
  candidates r = c0 :: rest ->
  let out := fst (get_ai_response cfg user_message w t) in
  (forall ct p0 ps,
      cand_content c0 = Some ct -> parts ct = Some (p0 :: ps) ->
      out = Returned (text p0))
  /\ (cand_content c0 = None
      \/ (exists ct, cand_content c0 = Some ct
                     /\ (parts ct = None \/ parts ct = Some [])) ->
      out = Returned couldnt_generate)
  /\ (out = Returned couldnt_generate
      \/ exists ct p0 ps, cand_content c0 = Some ct /\ parts ct = Some (p0 :: ps)
                          /\ out = Returned (text p0)).
Proof.
  intros Hp Hc Hcs out. subst out.
  rewrite (get_ai_response_gemini cfg w t user_message r Hp Hc).
  unfold gemini_reply, first_part_text, text_parts. rewrite Hcs.
  split; [|split].
  - intros ct p0 ps -> ->. reflexivity.
  - intros [-> | [ct [-> [-> | ->]]]]; reflexivity.
  - destruct (cand_content c0) as [ct|]; [|now left].
    destruct (parts ct) as [[|p0 ps]|] eqn:E; [now left| |now left].
    right. exists ct, p0, ps. repeat split. exact E.
Qed.

Lemma gemini_candidate_reply_witness :
  fst (get_ai_response Sample.cfg_gemini "hi"
         (Sample.gemini_world
            (mkGenerateContentResponse [Sample.candidate "Hello"] None)
            Sample.all_ok) [])
  = Returned "Hello".
Proof.
  refine (proj1 (gemini_candidate_reply Sample.cfg_gemini
            (Sample.gemini_world
               (mkGenerateContentResponse [Sample.candidate "Hello"] None)
               Sample.all_ok)
            [] "hi" _ (Sample.candidate "Hello") [] eq_refl eq_refl eq_refl)
          (mkContent (Some [mkPart "Hello"])) (mkPart "Hello") [] eq_refl eq_refl).
Defined.

(** C3 fails on the code: the module builds the blocking client, so the
    completion that [create] hands back is not awaitable and [await] raises
    inside the [try].  Here the provider answers ["hi"] with the content
    ["  Hello there  "]; the result is not ["Hello there"] but the apology,
    and the error is logged. *)
Lemma openai_answer_lost :
  get_ai_response Sample.cfg_openai "hi"
    (Sample.openai_world (Returned (Sample.completion "  Hello there  "))
       Sample.all_ok) []
  = (Returned "Sorry, I encountered an error trying to reach the AI (Openai). Please try again later.",
     [Log INFO "Sending to AI (openai): hi...";
      AskOpenAI "gpt-3.5-turbo" "hi";
      Log ERROR "Error calling Openai API: object ChatCompletion can't be used in 'await' expression"]).
Proof. reflexivity. Qed.

(** C4, as stated, fails: a reply that carries a block reason and a
    candidate is answered from the candidate, and the block reason is not in
    the result. *)
Lemma gemini_blocked_with_candidate :
  let r := mkGenerateContentResponse [Sample.candidate "Hello"]
             (Some (mkPromptFeedback Sample.SAFETY)) in
  block_reason_of r = Some Sample.SAFETY
  /\ name Sample.SAFETY = Some "SAFETY"
  /\ fst (get_ai_response Sample.cfg_gemini "hi"
            (Sample.gemini_world r Sample.all_ok) []) = Returned "Hello"
  /\ PyStr.contains "SAFETY" "Hello" = false.
Proof. repeat split. Qed.

(** C4 (amended): for every Gemini reply with no candidates and a block
    reason that has a name (a member of the SDK's enum), the result is the
    blocked message, which contains that name. *)
Theorem gemini_blocked_names_reason (cfg : Config) (w : World) (t : list Event)
    (user_message : string) (r : GenerateContentResponse) (reason : BlockReason)
    (reason_name : string) :
  AI_PROVIDER cfg = gemini ->
  gemini_call cfg w t user_message = Returned r ->
  candidates r = [] ->
  block_reason_of r = Some reason ->
  name reason = Some reason_name ->
  exists s,
    fst (get_ai_response cfg user_message w t) = Returned s
    /\ s = "My response was blocked due to: " +:+ reason_name
            +:+ ". Please rephrase your request."
    /\ PyStr.contains reason_name s = true.
Proof.
  intros Hp Hc Hcs Hb Hn.
  rewrite (get_ai_response_gemini cfg w t user_message r Hp Hc).
  unfold gemini_reply, first_part_text. rewrite Hcs, Hb, Hn.
  eexists. split; [reflexivity|]. split; [reflexivity|].
  unfold blocked_message. apply contains_append.
Qed.

Lemma gemini_blocked_names_reason_witness :
  exists s,
    fst (get_ai_response Sample.cfg_gemini "hi"
           (Sample.gemini_world
              (mkGenerateContentResponse [] (Some (mkPromptFeedback Sample.SAFETY)))
              Sample.all_ok) [])
    = Returned s
    /\ s = "My response was blocked due to: " +:+ "SAFETY"
            +:+ ". Please rephrase your request."
    /\ PyStr.contains "SAFETY" s = true.
Proof.
  exact (gemini_blocked_names_reason Sample.cfg_gemini
           (Sample.gemini_world
              (mkGenerateContentResponse [] (Some (mkPromptFeedback Sample.SAFETY)))
              Sample.all_ok)
           [] "hi" _ Sample.SAFETY "SAFETY" eq_refl eq_refl eq_refl eq_refl eq_refl).
Defined.

(** C5: for every Gemini reply with no candidates and no block reason, the
    result is exactly the fixed "empty response" string. *)
Theorem gemini_empty_response (cfg : Config) (w : World) (t : list Event)
    (user_message : string) (r : GenerateContentResponse) :
  AI_PROVIDER cfg = gemini ->
  gemini_call cfg w t user_message = Returned r ->
  candidates r = [] ->
  prompt_feedback r = None
  \/ (exists pf, prompt_feedback r = Some pf /\ value (block_reason pf) = 0) ->
  fst (get_ai_response cfg user_message w t)
  = Returned "Sorry, I received an empty response from the AI.".
Proof.
  intros Hp Hc Hcs Hb. apply block_reason_of_None in Hb.
  rewrite (get_ai_response_gemini cfg w t user_message r Hp Hc).
  unfold gemini_reply, first_part_text. now rewrite Hcs, Hb.
Qed.

Lemma gemini_empty_response_witness :
  fst (get_ai_response Sample.cfg_gemini "hi"
         (Sample.gemini_world
            (mkGenerateContentResponse []
               (Some (mkPromptFeedback Sample.BLOCK_REASON_UNSPECIFIED)))
            Sample.all_ok) [])
  = Returned "Sorry, I received an empty response from the AI.".
Proof.
  apply (gemini_empty_response Sample.cfg_gemini
           (Sample.gemini_world
              (mkGenerateContentResponse []
                 (Some (mkPromptFeedback Sample.BLOCK_REASON_UNSPECIFIED)))
              Sample.all_ok)
           [] "hi" _ eq_refl eq_refl eq_refl).
  right. eexists. split; reflexivity.
Defined.

(** C9: the candidates test comes first.  For every Gemini reply with a
    candidate and a block reason, the result is the first part's text when
    the candidate has parts and the fixed "couldn't generate" string when
    it has none; the branch that names the block
    reason is not entered, so no "request blocked" warning is logged; and
    the block reason has no part in the result: a reply with the same
    candidates and any other prompt feedback, or none, gives the same
    result and the same trace. *)
Theorem gemini_candidates_before_block (cfg : Config) (w : World)
    (t : list Event) (user_message : string) (r : GenerateContentResponse)
    (c0 : Candidate) (rest : list Candidate) (reason : BlockReason) :
  AI_PROVIDER cfg = gemini ->
  gemini_call cfg w t user_message = Returned r ->
  candidates r = c0 :: rest ->
  block_reason_of r = Some reason ->
  let out := get_ai_response cfg user_message w t in
  (forall ct p0 ps,
      cand_content c0 = Some ct -> parts ct = Some (p0 :: ps) ->
      fst out = Returned (text p0))
  /\ (cand_content c0 = None
      \/ (exists ct, cand_content c0 = Some ct
                     /\ (parts ct = None \/ parts ct = Some [])) ->
      fst out = Returned couldnt_generate)
  /\ (exists new,
        snd out = t ++ new
        /\ forall reason_name,
             ~ In (Log WARNING ("Gemini request blocked: " +:+ reason_name)) new)
  /\ (forall w' r',
        gemini_call cfg w' t user_message = Returned r' ->
        candidates r' = candidates r ->
        candidate_str w' = candidate_str w ->
        get_ai_response cfg user_message w' t = out).
Proof.
  intros Hp Hc Hcs _ out. subst out. split; [|split; [|split]].
  - rewrite (get_ai_response_gemini cfg w t user_message r Hp Hc).
    unfold gemini_reply, first_part_text, text_parts. rewrite Hcs.
    intros ct p0 ps -> ->. reflexivity.
  - rewrite (get_ai_response_gemini cfg w t user_message r Hp Hc).
    unfold gemini_reply, first_part_text, text_parts. rewrite Hcs.
    intros [-> | [ct [-> [-> | ->]]]]; reflexivity.
  - unfold gemini_call in Hc. unfold_m. rewrite Hp, Hc, Hcs. cbv iota.
    destruct (text_parts c0) as [[|p0 ps]|]; cbn [fst snd];
      rewrite <- !app_assoc; eexists; (split; [reflexivity|]);
      intros reason_name Hin; cbn in Hin;
      repeat (destruct Hin as [Hin|Hin]; [discriminate Hin|]); exact Hin.
  - intros w' r' Hc' Hcs' Hstr. unfold gemini_call in Hc, Hc'.
    unfold_m. rewrite Hp, Hc, Hc', Hcs', Hcs. cbv iota.
    destruct (text_parts c0) as [[|p0 ps]|]; rewrite ?Hstr; reflexivity.
Qed.

Lemma gemini_candidates_before_block_witness :
  get_ai_response Sample.cfg_gemini "hi"
    (Sample.gemini_world
       (mkGenerateContentResponse [Sample.candidate "Hello"] None)
       Sample.all_ok) []
  = get_ai_response Sample.cfg_gemini "hi"
      (Sample.gemini_world
         (mkGenerateContentResponse [Sample.candidate "Hello"]
            (Some (mkPromptFeedback Sample.SAFETY)))
         Sample.all_ok) [].
Proof.
  exact (proj2 (proj2 (proj2 (gemini_candidates_before_block Sample.cfg_gemini
           (Sample.gemini_world
              (mkGenerateContentResponse [Sample.candidate "Hello"]
                 (Some (mkPromptFeedback Sample.SAFETY)))
              Sample.all_ok)
           [] "hi" _ (Sample.candidate "Hello") [] Sample.SAFETY
           eq_refl eq_refl eq_refl eq_refl)))
         (Sample.gemini_world
            (mkGenerateContentResponse [Sample.candidate "Hello"] None)
            Sample.all_ok)
         (mkGenerateContentResponse [Sample.candidate "Hello"] None)
         eq_refl eq_refl eq_refl).
Defined.

(** ** Start-up *)

(** C6: when the key of the selected provider is unset or empty, or the
    provider name is neither ["openai"] nor ["gemini"], loading the module
    ends in [exit()] after one printed line, and the run handles no inbound
    message: its trace is empty. *)
Theorem startup_exits (h : Host) (w : World) (inbound : list Update) :
  (selected_provider h = "openai"
   /\ key_missing (getenv h "OPENAI_API_KEY") = true)
  \/ (selected_provider h = "gemini"
      /\ key_missing (getenv h "GOOGLE_API_KEY") = true)
  \/ (selected_provider h <> "openai" /\ selected_provider h <> "gemini") ->
  exists line,
    module_level h = Exited [line] /\ bot_py h w inbound = ([line], []).
Proof.
  unfold bot_py, module_level, key_missing.
  intros [[Hs Hk] | [[Hs Hk] | [Hn1 Hn2]]].
  - rewrite Hs. simpl.
    destruct (openai_installed h); simpl; [|eexists; split; reflexivity].
    destruct (getenv h "OPENAI_API_KEY") as [key|];
      [|eexists; split; reflexivity].
    destruct (PyStr.truthy key); [discriminate|eexists; split; reflexivity].
  - rewrite Hs. simpl.
    destruct (genai_installed h); simpl; [|eexists; split; reflexivity].
    destruct (getenv h "GOOGLE_API_KEY") as [key|];
      [|eexists; split; reflexivity].
    destruct (PyStr.truthy key); [discriminate|eexists; split; reflexivity].
  - apply String.eqb_neq in Hn1, Hn2. rewrite Hn1, Hn2.
    eexists; split; reflexivity.
Qed.

Lemma startup_exits_witness :
  exists line,
    module_level (Sample.host [("AI_PROVIDER", "Gemini")]) = Exited [line]
    /\ bot_py (Sample.host [("AI_PROVIDER", "Gemini")])
         (Sample.gemini_world (mkGenerateContentResponse [] None) Sample.all_ok)
         [Sample.update "hi"]
       = ([line], []).
Proof.
  apply (startup_exits (Sample.host [("AI_PROVIDER", "Gemini")])).
  right. left. split; vm_compute; reflexivity.
Defined.

(** The bot token is checked last: without it the module exits too. *)
Lemma token_missing_exits (h : Host) (w : World) (inbound : list Update) :
  key_missing (getenv h "TELEGRAM_BOT_TOKEN") = true ->
  exists printed,
    module_level h = Exited printed /\ printed <> []
    /\ bot_py h w inbound = (printed, []).
Proof.
  unfold bot_py, module_level, token_check, key_missing. intros Hk.
  destruct (String.eqb (selected_provider h) "openai").
  - destruct (openai_installed h); simpl; [|eexists; repeat split; discriminate].
    destruct (getenv h "OPENAI_API_KEY") as [key|];
      [|eexists; repeat split; discriminate].
    destruct (PyStr.truthy key); [|eexists; repeat split; discriminate].
    destruct (getenv h "TELEGRAM_BOT_TOKEN") as [tok|];
      [|eexists; repeat split; discriminate].
    destruct (PyStr.truthy tok); [discriminate|].
    eexists; repeat split; discriminate.
  - destruct (String.eqb (selected_provider h) "gemini");
      [|eexists; repeat split; discriminate].
    destruct (genai_installed h); simpl; [|eexists; repeat split; discriminate].
    destruct (getenv h "GOOGLE_API_KEY") as [key|];
      [|eexists; repeat split; discriminate].
    destruct (PyStr.truthy key); [|eexists; repeat split; discriminate].
    destruct (getenv h "TELEGRAM_BOT_TOKEN") as [tok|];
      [|eexists; repeat split; discriminate].
    destruct (PyStr.truthy tok); [discriminate|].
    eexists; repeat split; discriminate.
Qed.

(** When nothing is missing the module is loaded with the selected
    provider, so the handlers only ever see one of the two. *)
Lemma startup_loads (h : Host) (cfg : Config) (printed : list string) :
  module_level h = Loaded cfg printed ->
  selected_provider h = provider_name (AI_PROVIDER cfg)
  /\ PyStr.truthy (API_KEY cfg) = true
  /\ PyStr.truthy (TELEGRAM_BOT_TOKEN cfg) = true.
Proof.
  unfold module_level, token_check.
  destruct (String.eqb_spec (selected_provider h) "openai") as [E1|E1].
  - destruct (openai_installed h); simpl; [|discriminate].
    destruct (getenv h "OPENAI_API_KEY") as [key|]; [|discriminate].
    destruct (PyStr.truthy key) eqn:Ek; [|discriminate].
    destruct (getenv h "TELEGRAM_BOT_TOKEN") as [tok|]; [|discriminate].
    destruct (PyStr.truthy tok) eqn:Et; [|discriminate].
    intros H. injection H as <- _. simpl. auto.
  - destruct (String.eqb_spec (selected_provider h) "gemini") as [E2|E2];
      [|discriminate].
    destruct (genai_installed h); simpl; [|discriminate].
    destruct (getenv h "GOOGLE_API_KEY") as [key|]; [|discriminate].
    destruct (PyStr.truthy key) eqn:Ek; [|discriminate].
    destruct (getenv h "TELEGRAM_BOT_TOKEN") as [tok|]; [|discriminate].
    destruct (PyStr.truthy tok) eqn:Et; [|discriminate].
    intros H. injection H as <- _. simpl. auto.
Qed.

(** ** handle_message *)

Lemma delivered_app (a b : list Event) : delivered (a ++ b) = delivered a ++ delivered b.
Proof. unfold delivered. apply flat_map_app. Qed.

Lemma attempted_app (a b : list Event) : attempted (a ++ b) = attempted a ++ attempted b.
Proof. unfold attempted. apply flat_map_app. Qed.

(** C10: an update whose text is absent or empty is dropped at once: the
    handler returns, and the trace is left as it was, so no typing
    indicator, no provider call and no reply. *)
Theorem handle_message_ignores_empty (cfg : Config) (u : Update) (w : World)
    (t : list Event) :
  message_text u = None \/ message_text u = Some "" ->
  let r := handle_message cfg u w t in
  r = (Returned tt, t)
  /\ typing_calls (snd r) = typing_calls t
  /\ provider_calls (snd r) = provider_calls t
  /\ attempted (snd r) = attempted t.
Proof.
  intros H r. subst r. unfold handle_message.
  destruct H as [-> | ->]; repeat split.
Qed.

Lemma handle_message_ignores_empty_witness :
  handle_message Sample.cfg_gemini (mkUpdate (Some "") 42)
    (Sample.gemini_world (mkGenerateContentResponse [] None) Sample.all_ok) []
  = (Returned tt, []).
Proof.
  exact (proj1 (handle_message_ignores_empty Sample.cfg_gemini
           (mkUpdate (Some "") 42)
           (Sample.gemini_world (mkGenerateContentResponse [] None) Sample.all_ok)
           [] (or_intror eq_refl))).
Defined.

(** C7, as stated, fails: when both sends fail, two replies were tried and
    none went out. *)
Lemma handle_message_no_reply_delivered :
  let r := handle_message Sample.cfg_gemini (Sample.update "hi")
             (Sample.gemini_world
                (mkGenerateContentResponse [Sample.candidate "Hello"] None)
                Sample.all_fail) [] in
  delivered (snd r) = []
  /\ attempted (snd r) = ["Hello"; send_failed_text]
  /\ fst r = Raised Sample.NetworkError.
Proof. repeat split. Qed.

(** C7 (amended): for every inbound message with a non-empty text, the
    handler either returns after exactly one reply went out, or it raises
    and no reply went out.  It returns with the AI's answer when the first
    send succeeds, and with the fallback text when the first send fails
    with an [Exception] and the second succeeds.  It raises, with nothing
    delivered, in the four remaining cases: the typing indicator fails,
    [get_ai_response] raises, the first send fails outside [Exception], or
    both sends fail. *)
Theorem handle_message_one_reply (cfg : Config) (u : Update) (w : World)
    (t : list Event) (um : string) :
  message_text u = Some um ->
  um <> "" ->
  let chat := effective_chat_id u in
  let r := handle_message cfg u w t in
  exists new,
    snd r = t ++ new
    /\ ((fst r = Returned tt /\ exists body, delivered new = [body])
        \/ (exists e, fst r = Raised e /\ delivered new = []))
    /\ match send_chat_action w t chat with
       | Raised e0 => fst r = Raised e0 /\ delivered new = []
       | Returned _ =>
           match get_ai_response cfg um w (t ++ [Typing chat true]) with
           | (Raised e1, _) => fst r = Raised e1 /\ delivered new = []
           | (Returned ai, t2) =>
               match reply_text w t2 ai with
               | Returned _ => fst r = Returned tt /\ delivered new = [ai]
               | Raised e2 =>
                   if is_Exception e2 then
                     match reply_text w
                             (t2 ++ [Reply ai false;
                                     Log ERROR
                                       ("Error sending message back to Telegram: "
                                        +:+ exc_str e2)])
                             send_failed_text with
                     | Returned _ =>
                         fst r = Returned tt
                         /\ delivered new = [send_failed_text]
                     | Raised e3 => fst r = Raised e3 /\ delivered new = []
                     end
                   else fst r = Raised e2 /\ delivered new = []
               end
           end
       end.
Proof.
  intros Hm Hne chat r. subst chat r.
  unfold handle_message. rewrite Hm.
  destruct um as [|c um']; [contradiction|]. cbn [PyStr.truthy negb].
  unfold bind, try_except, await_send_chat_action, await_reply_text,
    logger_error, emit, ret.
  destruct (send_chat_action w t (effective_chat_id u)) as [[]|e0].
  2:{ exists [Typing (effective_chat_id u) false]. split; [reflexivity|].
      split; [right; exists e0|]; split; reflexivity. }
  cbn [succeeded].
  destruct (get_ai_response_trace cfg w
              (t ++ [Typing (effective_chat_id u) true]) (String c um'))
    as [new1 [Ht [_ [Hd _]]]].
  destruct (get_ai_response cfg (String c um') w
              (t ++ [Typing (effective_chat_id u) true]))
    as [[ai|e1] t2]; cbn [snd] in Ht; subst t2.
  2:{ exists ([Typing (effective_chat_id u) true] ++ new1).
      split; [now rewrite <- app_assoc|].
      rewrite delivered_app, Hd.
      split; [right; exists e1|]; split; reflexivity. }
  destruct (reply_text w ((t ++ [Typing (effective_chat_id u) true]) ++ new1) ai)
    as [[]|e2]; cbn [succeeded fst snd].
  - exists ([Typing (effective_chat_id u) true] ++ new1 ++ [Reply ai true]).
    split; [now rewrite <- !app_assoc|].
    rewrite !delivered_app, Hd.
    split; [left; split; [reflexivity|exists ai]|split]; reflexivity.
  - destruct (is_Exception e2).
    + replace ((((t ++ [Typing (effective_chat_id u) true]) ++ new1)
                ++ [Reply ai false])
               ++ [Log ERROR ("Error sending message back to Telegram: "
                              +:+ exc_str e2)])
        with (((t ++ [Typing (effective_chat_id u) true]) ++ new1)
              ++ [Reply ai false;
                  Log ERROR ("Error sending message back to Telegram: "
                             +:+ exc_str e2)])
        by (now rewrite <- !app_assoc).
      destruct (reply_text w
                  (((t ++ [Typing (effective_chat_id u) true]) ++ new1)
                   ++ [Reply ai false;
                       Log ERROR ("Error sending message back to Telegram: "
                                  +:+ exc_str e2)])
                  send_failed_text) as [[]|e3]; cbn [succeeded fst snd].
      * exists ([Typing (effective_chat_id u) true] ++ new1
                ++ [Reply ai false;
                    Log ERROR ("Error sending message back to Telegram: "
                               +:+ exc_str e2);
                    Reply send_failed_text true]).
        split; [rewrite <- !app_assoc; reflexivity|].
        rewrite !delivered_app, Hd.
        split; [left; split; [reflexivity|exists send_failed_text]|split];
          reflexivity.
      * exists ([Typing (effective_chat_id u) true] ++ new1
                ++ [Reply ai false;
                    Log ERROR ("Error sending message back to Telegram: "
                               +:+ exc_str e2);
                    Reply send_failed_text false]).
        split; [rewrite <- !app_assoc; reflexivity|].
        rewrite !delivered_app, Hd.
        split; [right; exists e3|]; split; reflexivity.
    + exists ([Typing (effective_chat_id u) true] ++ new1 ++ [Reply ai false]).
      split; [now rewrite <- !app_assoc|].
      rewrite !delivered_app, Hd.
      split; [right; exists e2|]; split; reflexivity.
Qed.

Lemma handle_message_one_reply_witness :
  exists new,
    snd (handle_message Sample.cfg_gemini (Sample.update "hi")
           (Sample.gemini_world
              (mkGenerateContentResponse [Sample.candidate "Hello"] None)
              Sample.first_fails) [])
    = [] ++ new
    /\ delivered new = [send_failed_text]
    /\ fst (handle_message Sample.cfg_gemini (Sample.update "hi")
              (Sample.gemini_world
                 (mkGenerateContentResponse [Sample.candidate "Hello"] None)
                 Sample.first_fails) [])
       = Returned tt.
Proof.
  destruct (handle_message_one_reply Sample.cfg_gemini (Sample.update "hi")
              (Sample.gemini_world
                 (mkGenerateContentResponse [Sample.candidate "Hello"] None)
                 Sample.first_fails) [] "hi" eq_refl)
    as [new [Hs [_ [Hf Hd]]]].
  - discriminate.
  - exists new. split; [exact Hs|]. split; [exact Hd|exact Hf].
Defined.

(** C8, as stated, fails: the fallback send is not guarded, so when it
    fails as the first send did, the handler raises. *)
Lemma handle_message_fallback_raises :
  let w := Sample.gemini_world
             (mkGenerateContentResponse [Sample.candidate "Hello"] None)
             Sample.all_fail in
  let r := handle_message Sample.cfg_gemini (Sample.update "hi") w [] in
  In (Reply "Hello" false) (snd r)
  /\ fst r = Raised Sample.NetworkError.
Proof. split; [|reflexivity]. vm_compute. tauto. Qed.

(** C8 (amended): when sending the AI's answer raises an [Exception], the
    failure is logged and the fallback text is sent once; the handler then
    ends as that second send ends: it returns when the fallback goes out and
    raises the second failure when it does not. *)
Theorem handle_message_send_failure (cfg : Config) (u : Update) (w : World)
    (t t2 : list Event) (um ai : string) (e : PyExc) :
  message_text u = Some um ->
  um <> "" ->
  send_chat_action w t (effective_chat_id u) = Returned tt ->
  get_ai_response cfg um w (t ++ [Typing (effective_chat_id u) true])
  = (Returned ai, t2) ->
  reply_text w t2 ai = Raised e ->
  is_Exception e = true ->
  let t3 := t2 ++ [Reply ai false;
                   Log ERROR ("Error sending message back to Telegram: "
                              +:+ exc_str e)] in
  let second := reply_text w t3 send_failed_text in
  handle_message cfg u w t
  = (second, t3 ++ [Reply send_failed_text (succeeded second)]).
Proof.
  intros Hm Hne Hty Hai Hsend Hex t3 second. subst t3 second.
  unfold handle_message. rewrite Hm.
  destruct um as [|c um']; [contradiction|]. cbn [PyStr.truthy negb].
  unfold bind, try_except, await_send_chat_action, await_reply_text,
    logger_error, emit, ret.
  rewrite Hty. cbn [succeeded]. rewrite Hai, Hsend, Hex.
  cbn [succeeded]. rewrite <- !app_assoc. reflexivity.
Qed.

Lemma handle_message_send_failure_witness :
  handle_message Sample.cfg_gemini (Sample.update "hi")
    (Sample.gemini_world
       (mkGenerateContentResponse [Sample.candidate "Hello"] None)
       Sample.first_fails) []
  = (Returned tt,
     [Typing 42 true;
      Log INFO "Sending to AI (gemini): hi...";
      AskGemini "hi";
      Log INFO "AI Response (gemini): Hello...";
      Reply "Hello" false;
      Log ERROR "Error sending message back to Telegram: Timed out";
      Reply send_failed_text true]).
Proof.
  refine (handle_message_send_failure Sample.cfg_gemini (Sample.update "hi")
            (Sample.gemini_world
               (mkGenerateContentResponse [Sample.candidate "Hello"] None)
               Sample.first_fails)
            [] _ "hi" "Hello" Sample.NetworkError
            eq_refl _ eq_refl eq_refl eq_refl eq_refl).
  discriminate.
Defined.

(** * Further properties *)

(** ** Start-up: which variables matter *)

Lemma getenv_setenv_eq (h : Host) (key v : string) :
  getenv (setenv h key v) key = Some v.
Proof. unfold getenv, setenv. cbn [environ]. apply lookup_insert_eq. Qed.

Lemma getenv_setenv_ne (h : Host) (key key' v : string) :
  key <> key' -> getenv (setenv h key v) key' = getenv h key'.
Proof. intros H. unfold getenv, setenv. cbn [environ]. now apply lookup_insert_ne. Qed.

Lemma getenv_default_getenv (h : Host) (key d : string) :
  getenv_default h key d = match getenv h key with Some v => v | None => d end.
Proof. reflexivity. Qed.

(** [module_level] reads the host through six variables and the two
    import flags only. *)
Lemma module_level_ext (h h' : Host) :
  selected_provider h' = selected_provider h ->
  openai_installed h' = openai_installed h ->
  genai_installed h' = genai_installed h ->
  (selected_provider h = "openai" ->
   getenv h' "OPENAI_API_KEY" = getenv h "OPENAI_API_KEY"
   /\ getenv h' "OPENAI_MODEL" = getenv h "OPENAI_MODEL") ->
  (selected_provider h = "gemini" ->
   getenv h' "GOOGLE_API_KEY" = getenv h "GOOGLE_API_KEY"
   /\ getenv h' "GEMINI_MODEL" = getenv h "GEMINI_MODEL") ->
  getenv h' "TELEGRAM_BOT_TOKEN" = getenv h "TELEGRAM_BOT_TOKEN" ->
  module_level h' = module_level h.
Proof.
  intros Hs Ho Hg Hopenai Hgemini Htok.
  unfold module_level, token_check. rewrite !getenv_default_getenv.
  rewrite Hs, Ho, Hg, Htok.
  destruct (String.eqb_spec (selected_provider h) "openai") as [E1|E1].
  - destruct (Hopenai E1) as [-> ->]. reflexivity.
  - destruct (String.eqb_spec (selected_provider h) "gemini") as [E2|E2];
      [|reflexivity].
    destruct (Hgemini E2) as [-> ->]. reflexivity.
Qed.

(** The provider name is matched without regard to case: two values of
    AI_PROVIDER with the same lower-case form load the module alike. *)
Theorem provider_case_insensitive (h : Host) (v v' : string) :
  PyStr.lower v = PyStr.lower v' ->
  module_level (setenv h "AI_PROVIDER" v)
  = module_level (setenv h "AI_PROVIDER" v').
Proof.
  intros Hl.
  apply module_level_ext; try reflexivity.
  - unfold selected_provider. rewrite !getenv_default_getenv.
    now rewrite !getenv_setenv_eq.
  - intros _. now rewrite !getenv_setenv_ne by discriminate.
  - intros _. now rewrite !getenv_setenv_ne by discriminate.
  - now rewrite !getenv_setenv_ne by discriminate.
Qed.

Lemma provider_case_insensitive_witness :
  module_level (setenv (Sample.host [("GOOGLE_API_KEY", "k")]) "AI_PROVIDER" "GEMINI")
  = module_level (setenv (Sample.host [("GOOGLE_API_KEY", "k")]) "AI_PROVIDER" "Gemini").
Proof.
  apply (provider_case_insensitive (Sample.host [("GOOGLE_API_KEY", "k")])
           "GEMINI" "Gemini").
  reflexivity.
Defined.

(** Without AI_PROVIDER in the environment the module loads as it does with
    AI_PROVIDER=openai. *)
Theorem provider_defaults_to_openai (h : Host) :
  getenv h "AI_PROVIDER" = None ->
  module_level h = module_level (setenv h "AI_PROVIDER" "openai").
Proof.
  intros Hn. symmetry.
  apply module_level_ext; try reflexivity.
  - unfold selected_provider. rewrite !getenv_default_getenv.
    now rewrite getenv_setenv_eq, Hn.
  - intros _. now rewrite !getenv_setenv_ne by discriminate.
  - intros _. now rewrite !getenv_setenv_ne by discriminate.
  - now rewrite !getenv_setenv_ne by discriminate.
Qed.

Lemma provider_defaults_to_openai_witness :
  module_level (Sample.host [("OPENAI_API_KEY", "sk"); ("TELEGRAM_BOT_TOKEN", "1:a")])
  = module_level
      (setenv (Sample.host [("OPENAI_API_KEY", "sk"); ("TELEGRAM_BOT_TOKEN", "1:a")])
         "AI_PROVIDER" "openai").
Proof.
  apply (provider_defaults_to_openai
           (Sample.host [("OPENAI_API_KEY", "sk"); ("TELEGRAM_BOT_TOKEN", "1:a")])).
  vm_compute. reflexivity.
Defined.

(** The settings of the provider that is not selected are never read:
    setting the other provider's key or model changes nothing. *)
Theorem other_provider_settings_unread (h : Host) (v : string) :
  (selected_provider h = "openai" ->
   module_level (setenv h "GOOGLE_API_KEY" v) = module_level h
   /\ module_level (setenv h "GEMINI_MODEL" v) = module_level h)
  /\ (selected_provider h = "gemini" ->
      module_level (setenv h "OPENAI_API_KEY" v) = module_level h
      /\ module_level (setenv h "OPENAI_MODEL" v) = module_level h).
Proof.
  assert (Hsel : forall key, key <> "AI_PROVIDER" ->
            selected_provider (setenv h key v) = selected_provider h).
  { intros key Hk. unfold selected_provider. rewrite !getenv_default_getenv.
    now rewrite getenv_setenv_ne. }
  split; intros Hs; split; apply module_level_ext;
    try reflexivity;
    try (apply Hsel; discriminate);
    try (intros Hs'; rewrite Hs in Hs'; discriminate);
    try (intros _; now rewrite !getenv_setenv_ne by discriminate);
    now rewrite !getenv_setenv_ne by discriminate.
Qed.

Lemma other_provider_settings_unread_witness :
  module_level (setenv (Sample.host [("OPENAI_API_KEY", "sk")]) "GOOGLE_API_KEY" "g")
  = module_level (Sample.host [("OPENAI_API_KEY", "sk")]).
Proof.
  refine (proj1 (proj1 (other_provider_settings_unread
                          (Sample.host [("OPENAI_API_KEY", "sk")]) "g") _)).
  vm_compute. reflexivity.
Defined.

Lemma token_missing_exits_witness :
  exists printed,
    module_level (Sample.host [("OPENAI_API_KEY", "sk")]) = Exited printed
    /\ printed <> []
    /\ bot_py (Sample.host [("OPENAI_API_KEY", "sk")])
         (Sample.openai_world (Raised Sample.NetworkError) Sample.all_ok)
         [Sample.update "hi"]
       = (printed, []).
Proof.
  apply (token_missing_exits (Sample.host [("OPENAI_API_KEY", "sk")])).
  vm_compute. reflexivity.
Defined.

(** ** Start-up: what a loaded module holds *)

Lemma truthy_not_empty (s : string) : PyStr.truthy s = true <-> s <> "".
Proof. destruct s; simpl; split; intros H; congruence. Qed.

(** When the module loads, its globals are the environment's: the provider
    is the selected one and its library is installed, the key, the model
    and the token are those of the environment (the model falling back to
    the provider's default), key and token are non-empty, and one banner
    line was printed. *)
Theorem module_level_loaded (h : Host) (cfg : Config) (printed : list string) :
  module_level h = Loaded cfg printed ->
  selected_provider h = provider_name (AI_PROVIDER cfg)
  /\ match AI_PROVIDER cfg with
     | openai =>
         openai_installed h = true
         /\ getenv h "OPENAI_API_KEY" = Some (API_KEY cfg)
         /\ MODEL cfg = getenv_default h "OPENAI_MODEL" "gpt-3.5-turbo"
         /\ printed = ["Using AI Provider: OpenAI (Model: " +:+ MODEL cfg +:+ ")"]
     | gemini =>
         genai_installed h = true
         /\ getenv h "GOOGLE_API_KEY" = Some (API_KEY cfg)
         /\ MODEL cfg = getenv_default h "GEMINI_MODEL" "gemini-pro"
         /\ printed = ["Using AI Provider: Google Gemini (Model: " +:+ MODEL cfg +:+ ")"]
     end
  /\ API_KEY cfg <> ""
  /\ getenv h "TELEGRAM_BOT_TOKEN" = Some (TELEGRAM_BOT_TOKEN cfg)
  /\ TELEGRAM_BOT_TOKEN cfg <> "".
Proof.
  unfold module_level, token_check.
  destruct (String.eqb_spec (selected_provider h) "openai") as [E1|E1].
  - destruct (openai_installed h); cbn [negb]; [|discriminate].
    destruct (getenv h "OPENAI_API_KEY") as [key|]; [|discriminate].
    destruct (PyStr.truthy key) eqn:Ek; [|discriminate].
    destruct (getenv h "TELEGRAM_BOT_TOKEN") as [tok|]; [|discriminate].
    destruct (PyStr.truthy tok) eqn:Et; [|discriminate].
    intros H. injection H as <- <-. cbn.
    apply truthy_not_empty in Ek, Et. repeat split; auto.
  - destruct (String.eqb_spec (selected_provider h) "gemini") as [E2|E2];
      [|discriminate].
    destruct (genai_installed h); cbn [negb]; [|discriminate].
    destruct (getenv h "GOOGLE_API_KEY") as [key|]; [|discriminate].
    destruct (PyStr.truthy key) eqn:Ek; [|discriminate].
    destruct (getenv h "TELEGRAM_BOT_TOKEN") as [tok|]; [|discriminate].
    destruct (PyStr.truthy tok) eqn:Et; [|discriminate].
    intros H. injection H as <- <-. cbn.
    apply truthy_not_empty in Ek, Et. repeat split; auto.
Qed.

Lemma module_level_loaded_witness :
  selected_provider
    (Sample.host [("AI_PROVIDER", "Gemini"); ("GOOGLE_API_KEY", "k");
                  ("TELEGRAM_BOT_TOKEN", "1:a")])
  = provider_name (AI_PROVIDER (mkConfig gemini "gemini-pro" "k" "1:a")).
Proof.
  exact (proj1 (module_level_loaded
           (Sample.host [("AI_PROVIDER", "Gemini"); ("GOOGLE_API_KEY", "k");
                         ("TELEGRAM_BOT_TOKEN", "1:a")])
           (mkConfig gemini "gemini-pro" "k" "1:a")
           ["Using AI Provider: Google Gemini (Model: gemini-pro)"]
           ltac:(vm_compute; reflexivity))).
Defined.

(** Conversely, the module loads whenever the selected provider is one of
    the two, its library is installed and both its key and the bot token
    are set and non-empty. *)
Theorem module_level_loads (h : Host) (key tok : string) :
  key <> "" ->
  tok <> "" ->
  getenv h "TELEGRAM_BOT_TOKEN" = Some tok ->
  (selected_provider h = "openai" ->
   openai_installed h = true ->
   getenv h "OPENAI_API_KEY" = Some key ->
   exists printed,
     module_level h
     = Loaded (mkConfig openai (getenv_default h "OPENAI_MODEL" "gpt-3.5-turbo")
                 key tok) printed)
  /\ (selected_provider h = "gemini" ->
      genai_installed h = true ->
      getenv h "GOOGLE_API_KEY" = Some key ->
      exists printed,
        module_level h
        = Loaded (mkConfig gemini (getenv_default h "GEMINI_MODEL" "gemini-pro")
                    key tok) printed).
Proof.
  intros Hk Ht Htok.
  apply truthy_not_empty in Hk, Ht.
  unfold module_level, token_check.
  split; intros Hs Hi Hkey; rewrite Hs, Hi, Hkey, Hk, Htok, Ht; cbn;
    eexists; reflexivity.
Qed.

Lemma module_level_loads_witness :
  exists printed,
    module_level
      (Sample.host [("OPENAI_API_KEY", "sk"); ("TELEGRAM_BOT_TOKEN", "1:a");
                    ("OPENAI_MODEL", "gpt-4o")])
    = Loaded (mkConfig openai
                (getenv_default
                   (Sample.host [("OPENAI_API_KEY", "sk");
                                 ("TELEGRAM_BOT_TOKEN", "1:a");
                                 ("OPENAI_MODEL", "gpt-4o")])
                   "OPENAI_MODEL" "gpt-3.5-turbo")
                "sk" "1:a") printed.
Proof.
  refine (proj1 (module_level_loads
                   (Sample.host [("OPENAI_API_KEY", "sk");
                                 ("TELEGRAM_BOT_TOKEN", "1:a");
                                 ("OPENAI_MODEL", "gpt-4o")])
                   "sk" "1:a" _ _ _) _ _ _);
    try discriminate; vm_compute; reflexivity.
Defined.

(** ** get_ai_response: what a run adds to the trace *)

(** A run logs the request, asks the configured provider, and then only
    logs.  Either it returns a string without logging an error, and the one
    INFO record that follows is the response line for that string; or it
    raises or logs an error, and no INFO record follows. *)
Lemma get_ai_response_shape (cfg : Config) (w : World) (t : list Event) (m : string) :
  exists tail,
    snd (get_ai_response cfg m w t)
    = t ++ Log INFO (sending_line cfg m) :: ask_event cfg m :: tail
    /\ forallb is_log tail = true
    /\ ((logged INFO tail = []
         /\ (logged ERROR tail <> []
             \/ exists e, fst (get_ai_response cfg m w t) = Raised e))
        \/ exists s, fst (get_ai_response cfg m w t) = Returned s
                     /\ logged INFO tail = [response_line cfg s]
                     /\ logged ERROR tail = []).
Proof.
  unfold ask_event. unfold_m.
  destruct (AI_PROVIDER cfg).
  - destruct (chat_completions_create w _ (MODEL cfg) m) as [r|e].
    + cbn. rewrite <- !app_assoc. eexists. split; [reflexivity|].
      split; [reflexivity|]. left. split; [reflexivity|]. now left.
    + destruct (is_Exception e); cbn [fst snd]; rewrite <- !app_assoc;
        eexists; (split; [reflexivity|]); (split; [reflexivity|]);
        left; (split; [reflexivity|]); [now left|right; now exists e].
  - destruct (generate_content_async w _ m) as [r|e].
    + destruct (candidates r) as [|c0 rest].
      * destruct (block_reason_of r) as [reason|];
          [destruct (name reason)|]; cbn; rewrite <- !app_assoc;
          eexists; (split; [reflexivity|]); (split; [reflexivity|]);
          first [ right; eexists; repeat split; reflexivity
                | left; split; [reflexivity|]; now left ].
      * destruct (text_parts c0) as [[|p0 ps]|]; cbn [fst snd];
          rewrite <- !app_assoc; eexists; (split; [reflexivity|]);
          (split; [reflexivity|]); right; eexists; repeat split; reflexivity.
    + destruct (is_Exception e); cbn [fst snd]; rewrite <- !app_assoc;
        eexists; (split; [reflexivity|]); (split; [reflexivity|]);
        left; (split; [reflexivity|]); [now left|right; now exists e].
Qed.

Lemma logs_hold_no_calls (l : list Event) :
  forallb is_log l = true ->
  provider_calls l = [] /\ attempted l = [] /\ delivered l = []
  /\ typing_calls l = [].
Proof.
  induction l as [|ev l IH]; [repeat split|].
  cbn [forallb]. intros H. apply andb_true_iff in H as [Hev Hl].
  destruct (IH Hl) as [H1 [H2 [H3 H4]]].
  destruct ev; try discriminate.
  unfold provider_calls, attempted, delivered, typing_calls in *.
  cbn [flat_map]. rewrite H1, H2, H3, H4. repeat split.
Qed.

Lemma logs_hold_no_ask (l : list Event) (ev : Event) :
  forallb is_log l = true -> In ev l -> is_log ev = true.
Proof.
  intros H Hin. rewrite forallb_forall in H. exact (H ev Hin).
Qed.

Lemma length_append (a b : string) :
  String.length (a +:+ b) = (String.length a + String.length b)%nat.
Proof.
  induction a as [|c a IH]; [reflexivity|].
  rewrite append_cons. cbn [String.length]. now rewrite IH.
Qed.

Lemma length_take (n : nat) (s : string) :
  (String.length (PyStr.take n s) <= n)%nat.
Proof.
  revert s. induction n as [|n IH]; intros s; [simpl; lia|].
  destruct s as [|c s]; cbn [PyStr.take String.length]; [lia|].
  specialize (IH s). lia.
Qed.

Lemma length_provider_name (p : Provider) :
  String.length (provider_name p) = 6%nat.
Proof. destruct p; reflexivity. Qed.

Lemma length_sending_line (cfg : Config) (m : string) :
  (String.length (sending_line cfg m) <= 77)%nat.
Proof.
  unfold sending_line. rewrite !length_append, length_provider_name.
  pose proof (length_take 50 m). cbn [String.length]. lia.
Qed.

Lemma length_response_line (cfg : Config) (s : string) :
  (String.length (response_line cfg s) <= 75)%nat.
Proof.
  unfold response_line. rewrite !length_append, length_provider_name.
  pose proof (length_take 50 s). cbn [String.length]. lia.
Qed.

(** One run of [get_ai_response] asks the configured provider exactly once,
    with the model of the configuration and the user's text as it came in,
    never asks the other provider, and makes no Telegram call. *)
Theorem get_ai_response_asks_once (cfg : Config) (w : World) (t : list Event)
    (user_message : string) :
  exists new,
    snd (get_ai_response cfg user_message w t) = t ++ new
    /\ provider_calls new = [user_message]
    /\ attempted new = [] /\ typing_calls new = []
    /\ (forall model u, In (AskOpenAI model u) new ->
                        AI_PROVIDER cfg = openai /\ model = MODEL cfg)
    /\ (forall u, In (AskGemini u) new -> AI_PROVIDER cfg = gemini).
Proof.
  destruct (get_ai_response_shape cfg w t user_message) as [tail [Hs [Hl _]]].
  destruct (logs_hold_no_calls tail Hl) as [H1 [H2 [_ H4]]].
  eexists. split; [exact Hs|].
  unfold provider_calls, attempted, typing_calls in *.
  unfold ask_event. cbn [flat_map].
  split; [|split; [|split; [|split]]].
  - rewrite H1. destruct (AI_PROVIDER cfg); reflexivity.
  - rewrite H2. destruct (AI_PROVIDER cfg); reflexivity.
  - rewrite H4. destruct (AI_PROVIDER cfg); reflexivity.
  - intros model u [H|[H|H]]; [discriminate| |].
    + destruct (AI_PROVIDER cfg); [|discriminate]. injection H as <- _. auto.
    + pose proof (logs_hold_no_ask tail _ Hl H). discriminate.
  - intros u [H|[H|H]]; [discriminate| |].
    + destruct (AI_PROVIDER cfg); [discriminate|reflexivity].
    + pose proof (logs_hold_no_ask tail _ Hl H). discriminate.
Qed.

Lemma take_prefix (n : nat) (s : string) :
  exists rest, s = PyStr.take n s +:+ rest.
Proof.
  revert s. induction n as [|n IH]; intros s; [now exists s|].
  destruct s as [|c s]; [now exists ""|].
  destruct (IH s) as [rest Hr]. exists rest.
  cbn [PyStr.take]. rewrite append_cons. now rewrite <- Hr.
Qed.

Lemma length_take_min (n : nat) (s : string) :
  String.length (PyStr.take n s) = Nat.min n (String.length s).
Proof.
  revert s. induction n as [|n IH]; intros s; [reflexivity|].
  destruct s as [|c s]; [reflexivity|].
  cbn [PyStr.take String.length Nat.min]. now rewrite IH.
Qed.

Lemma logged_ask (cfg : Config) (m : string) (lvl : Level) (l : list Event) :
  logged lvl (ask_event cfg m :: l) = logged lvl l.
Proof. unfold ask_event. destruct (AI_PROVIDER cfg); reflexivity. Qed.

(** What the INFO log of a run holds of the conversation.  The first
    record is "Sending to AI (provider): " followed by the first 50
    characters of the user's text (all of it when it is shorter) and three
    dots.  When the run returns a string without logging an error, a second
    record "AI Response (provider): " follows with the first 50 characters
    of that string and three dots; when it raises or logs an error, there
    is no second record.  None is longer than 77 characters. *)
Theorem get_ai_response_info_lines_bounded (cfg : Config) (w : World)
    (t : list Event) (user_message : string) :
  exists new head,
    snd (get_ai_response cfg user_message w t) = t ++ new
    /\ (exists rest, user_message = head +:+ rest)
    /\ String.length head = Nat.min 50 (String.length user_message)
    /\ ((logged INFO new
         = ["Sending to AI (" +:+ provider_name (AI_PROVIDER cfg) +:+ "): "
            +:+ head +:+ "..."]
         /\ (logged ERROR new <> []
             \/ exists e, fst (get_ai_response cfg user_message w t) = Raised e))
        \/ exists s shead,
            fst (get_ai_response cfg user_message w t) = Returned s
            /\ logged ERROR new = []
            /\ (exists rest, s = shead +:+ rest)
            /\ String.length shead = Nat.min 50 (String.length s)
            /\ logged INFO new
               = ["Sending to AI (" +:+ provider_name (AI_PROVIDER cfg) +:+ "): "
                  +:+ head +:+ "...";
                  "AI Response (" +:+ provider_name (AI_PROVIDER cfg) +:+ "): "
                  +:+ shead +:+ "..."])
    /\ (forall line, In line (logged INFO new) -> (String.length line <= 77)%nat).
Proof.
  destruct (get_ai_response_shape cfg w t user_message) as [tail [Hs [_ Hi]]].
  eexists. exists (PyStr.take 50 user_message).
  split; [exact Hs|]. split; [apply take_prefix|].
  split; [apply length_take_min|].
  assert (Hl : forall lvl,
             logged lvl (Log INFO (sending_line cfg user_message)
                         :: ask_event cfg user_message :: tail)
             = logged lvl [Log INFO (sending_line cfg user_message)]
               ++ logged lvl tail).
  { intros lvl. unfold ask_event.
    destruct (AI_PROVIDER cfg); destruct lvl; reflexivity. }
  rewrite !Hl. cbn [logged flat_map app].
  destruct Hi as [[-> He] | [s [Hf [-> He]]]].
  - split.
    + left. split; [reflexivity|]. exact He.
    + intros line [<-|[]]. apply length_sending_line.
  - split.
    + right. exists s, (PyStr.take 50 s).
      split; [exact Hf|]. split; [exact He|]. split; [apply take_prefix|].
      split; [apply length_take_min|reflexivity].
    + intros line [<-|[<-|[]]]; [apply length_sending_line|].
      pose proof (length_response_line cfg s). lia.
Qed.

(** An exception outside [Exception] from the provider call is neither
    caught nor logged: [get_ai_response] raises it after the request line
    and the call. *)
Theorem get_ai_response_lets_through (cfg : Config) (w : World) (t : list Event)
    (user_message : string) (e : PyExc) :
  provider_error cfg w t user_message = Some e ->
  is_Exception e = false ->
  get_ai_response cfg user_message w t
  = (Raised e,
     t ++ [Log INFO (sending_line cfg user_message); ask_event cfg user_message]).
Proof.
  unfold provider_error, openai_call, gemini_call, ask_event. unfold_m.
  intros He Hex.
  destruct (AI_PROVIDER cfg).
  - destruct (chat_completions_create w _ (MODEL cfg) user_message) as [r|e'];
      [discriminate|].
    injection He as ->. rewrite Hex, <- app_assoc. reflexivity.
  - destruct (generate_content_async w _ user_message) as [r|e'];
      [discriminate|].
    injection He as ->. rewrite Hex, <- app_assoc. reflexivity.
Qed.

Lemma get_ai_response_lets_through_witness :
  get_ai_response Sample.cfg_gemini "hi"
    (Sample.world (Returned tt) (Raised Sample.NetworkError)
       (Raised Sample.CancelledError) Sample.all_ok) []
  = (Raised Sample.CancelledError,
     [Log INFO "Sending to AI (gemini): hi..."; AskGemini "hi"]).
Proof.
  exact (get_ai_response_lets_through Sample.cfg_gemini
           (Sample.world (Returned tt) (Raised Sample.NetworkError)
              (Raised Sample.CancelledError) Sample.all_ok)
           [] "hi" Sample.CancelledError eq_refl eq_refl).
Defined.

(** ** get_ai_response: answers that end in the apology *)

(** With the OpenAI provider no answer is ever read.  Whatever completion
    the call hands back, with or without choices or content, [await] on it
    raises inside the [try]: the error is logged and the apology is
    returned, so the result does not depend on the completion. *)
Theorem openai_answer_never_read (cfg : Config) (w : World) (t : list Event)
    (user_message : string) (r : ChatCompletion) :
  AI_PROVIDER cfg = openai ->
  openai_call cfg w t user_message = Returned r ->
  get_ai_response cfg user_message w t
  = (Returned (apology cfg),
     t ++ [Log INFO (sending_line cfg user_message);
           AskOpenAI (MODEL cfg) user_message;
           Log ERROR ("Error calling Openai API: "
                      +:+ "object ChatCompletion can't be used in 'await' expression")]).
Proof. exact (get_ai_response_openai cfg w t user_message r). Qed.

Lemma openai_answer_never_read_witness :
  get_ai_response Sample.cfg_openai "hi"
    (Sample.openai_world (Returned (mkChatCompletion [])) Sample.all_ok) []
  = (Returned (apology Sample.cfg_openai),
     [] ++ [Log INFO (sending_line Sample.cfg_openai "hi");
            AskOpenAI (MODEL Sample.cfg_openai) "hi";
            Log ERROR ("Error calling Openai API: "
                       +:+ "object ChatCompletion can't be used in 'await' expression")]).
Proof.
  exact (openai_answer_never_read Sample.cfg_openai
           (Sample.openai_world (Returned (mkChatCompletion [])) Sample.all_ok)
           [] "hi" (mkChatCompletion []) eq_refl eq_refl).
Defined.

(** A Gemini reply without candidates whose block reason is a value the
    SDK's enum has no name for is not answered with the blocked message:
    reading the name raises inside the [try], nothing is logged about the
    block, and the apology is returned. *)
Theorem gemini_unnamed_block_reason (cfg : Config) (w : World) (t : list Event)
    (user_message : string) (r : GenerateContentResponse) (reason : BlockReason) :
  AI_PROVIDER cfg = gemini ->
  gemini_call cfg w t user_message = Returned r ->
  candidates r = [] ->
  block_reason_of r = Some reason ->
  name reason = None ->
  get_ai_response cfg user_message w t
  = (Returned (apology cfg),
     t ++ [Log INFO (sending_line cfg user_message);
           AskGemini user_message;
           Log ERROR ("Error calling Gemini API: "
                      +:+ "'int' object has no attribute 'name'")]).
Proof.
  intros Hp Hc Hcs Hb Hn. unfold gemini_call in Hc.
  unfold_m. unfold apology. rewrite Hp, Hc, Hcs, Hb, Hn. cbn.
  rewrite <- !app_assoc. reflexivity.
Qed.

Lemma gemini_unnamed_block_reason_witness :
  get_ai_response Sample.cfg_gemini "hi"
    (Sample.gemini_world
       (mkGenerateContentResponse []
          (Some (mkPromptFeedback Sample.UNKNOWN_REASON)))
       Sample.all_ok) []
  = (Returned (apology Sample.cfg_gemini),
     [] ++ [Log INFO (sending_line Sample.cfg_gemini "hi");
            AskGemini "hi";
            Log ERROR ("Error calling Gemini API: "
                       +:+ "'int' object has no attribute 'name'")]).
Proof.
  exact (gemini_unnamed_block_reason Sample.cfg_gemini
           (Sample.gemini_world
              (mkGenerateContentResponse []
                 (Some (mkPromptFeedback Sample.UNKNOWN_REASON)))
              Sample.all_ok)
           [] "hi" _ Sample.UNKNOWN_REASON eq_refl eq_refl eq_refl eq_refl eq_refl).
Defined.

(** [get_ai_response] hands no [Exception] on to its caller.  When the
    provider call raises nothing outside [Exception], it returns a string;
    when the call raised, that string is the apology; and the string is
    empty only when it is the text of the first part of a Gemini reply. *)
Theorem get_ai_response_never_raises (cfg : Config) (w : World) (t : list Event)
    (user_message : string) :
  (forall e, provider_error cfg w t user_message = Some e -> is_Exception e = true) ->
  exists s,
    fst (get_ai_response cfg user_message w t) = Returned s
    /\ (forall e, provider_error cfg w t user_message = Some e -> s = apology cfg)
    /\ (s = "" ->
        AI_PROVIDER cfg = gemini
        /\ exists r, gemini_call cfg w t user_message = Returned r
                     /\ first_part_text r = Some "").
Proof.
  intros Hexc.
  destruct (provider_error cfg w t user_message) as [e|] eqn:He.
  - destruct (get_ai_response_caught cfg w t user_message e He (Hexc e eq_refl))
      as [Hr _].
    exists (apology cfg). split; [exact Hr|]. split; [reflexivity|].
    intros H. now destruct (apology_not_empty cfg).
  - unfold provider_error in He.
    destruct (AI_PROVIDER cfg) eqn:Hp.
    + destruct (openai_call cfg w t user_message) as [r|e] eqn:Hc; [|discriminate].
      rewrite (get_ai_response_openai cfg w t user_message r Hp Hc).
      eexists. split; [reflexivity|]. split; [discriminate|].
      intros H. now destruct (apology_not_empty cfg).
    + destruct (gemini_call cfg w t user_message) as [r|e] eqn:Hc; [|discriminate].
      rewrite (get_ai_response_gemini cfg w t user_message r Hp Hc).
      eexists. split; [reflexivity|]. split; [discriminate|].
      unfold gemini_reply.
      destruct (first_part_text r) as [s|] eqn:Ef.
      * intros ->. split; [reflexivity|]. exists r. split; [reflexivity|exact Ef].
      * destruct (candidates r); [destruct (block_reason_of r) as [b|];
          [destruct (name b)|]|]; discriminate.
Qed.

Lemma get_ai_response_never_raises_witness :
  exists s,
    fst (get_ai_response Sample.cfg_gemini "hi"
           (Sample.world (Returned tt) (Raised Sample.NetworkError)
              (Raised Sample.NetworkError) Sample.all_ok) [])
    = Returned s
    /\ s = apology Sample.cfg_gemini.
Proof.
  destruct (get_ai_response_never_raises Sample.cfg_gemini
              (Sample.world (Returned tt) (Raised Sample.NetworkError)
                 (Raised Sample.NetworkError) Sample.all_ok) [] "hi")
    as [s [Hs [Ha _]]].
  - intros e H. vm_compute in H. injection H as <-. reflexivity.
  - exists s. split; [exact Hs|]. exact (Ha Sample.NetworkError eq_refl).
Defined.

(** ** handle_message: the paths through one message *)

Lemma provider_calls_app (a b : list Event) :
  provider_calls (a ++ b) = provider_calls a ++ provider_calls b.
Proof. unfold provider_calls. apply flat_map_app. Qed.

Lemma typing_calls_app (a b : list Event) :
  typing_calls (a ++ b) = typing_calls a ++ typing_calls b.
Proof. unfold typing_calls. apply flat_map_app. Qed.

Lemma get_ai_response_new (cfg : Config) (w : World) (t : list Event) (m : string) :
  exists new,
    snd (get_ai_response cfg m w t) = t ++ new
    /\ provider_calls new = [m] /\ attempted new = [] /\ delivered new = []
    /\ typing_calls new = [].
Proof.
  destruct (get_ai_response_shape cfg w t m) as [tail [Hs [Hl _]]].
  destruct (logs_hold_no_calls tail Hl) as [H1 [H2 [H3 H4]]].
  eexists. split; [exact Hs|].
  unfold provider_calls, attempted, delivered, typing_calls in *.
  unfold ask_event. cbn [flat_map]. rewrite H1, H2, H3, H4.
  destruct (AI_PROVIDER cfg); repeat split.
Qed.

Ltac unfold_handler :=
  unfold handle_message, bind, try_except, await_send_chat_action,
    await_reply_text, logger_error, emit, ret.

Ltac read_trace :=
  rewrite ?provider_calls_app, ?typing_calls_app, ?attempted_app, ?delivered_app.

(** What one message with a text adds to the trace. *)
Lemma handle_message_new (cfg : Config) (u : Update) (w : World)
    (t : list Event) (um : string) :
  message_text u = Some um ->
  um <> "" ->
  exists new,
    snd (handle_message cfg u w t) = t ++ new
    /\ typing_calls new = [effective_chat_id u]
    /\ (provider_calls new = [] \/ provider_calls new = [um])
    /\ (attempted new = []
        \/ exists ai, attempted new = [ai]
                      \/ attempted new = [ai; send_failed_text])
    /\ (delivered new = [] \/ exists body, delivered new = [body]).
Proof.
  intros Hm Hne. unfold_handler. rewrite Hm.
  destruct um as [|c um']; [contradiction|]. cbn [PyStr.truthy negb].
  destruct (send_chat_action w t (effective_chat_id u)) as [[]|e0].
  2:{ exists [Typing (effective_chat_id u) false]. repeat split; now left. }
  cbn [succeeded].
  destruct (get_ai_response_new cfg w
              (t ++ [Typing (effective_chat_id u) true]) (String c um'))
    as [new1 [Ht [Hp [Ha [Hd Hty]]]]].
  destruct (get_ai_response cfg (String c um') w
              (t ++ [Typing (effective_chat_id u) true]))
    as [[ai|e1] t2]; cbn [snd] in Ht; subst t2.
  2:{ exists ([Typing (effective_chat_id u) true] ++ new1).
      split; [now rewrite <- app_assoc|]. read_trace.
      rewrite Hty, Hp, Ha, Hd. repeat split; [now right|now left|now left]. }
  match goal with |- context [reply_text w ?tr ai] =>
    destruct (reply_text w tr ai) as [[]|e2] end; cbn [succeeded fst snd].
  - exists ([Typing (effective_chat_id u) true] ++ new1 ++ [Reply ai true]).
    split; [now rewrite <- !app_assoc|]. read_trace.
    rewrite Hty, Hp, Ha, Hd. repeat split; [now right| |right; now exists ai].
    right. exists ai. now left.
  - destruct (is_Exception e2).
    + match goal with |- context [reply_text w ?tr send_failed_text] =>
        destruct (reply_text w tr send_failed_text) as [[]|e3] end;
        cbn [succeeded fst snd].
      * exists ([Typing (effective_chat_id u) true] ++ new1
                ++ [Reply ai false;
                    Log ERROR ("Error sending message back to Telegram: "
                               +:+ exc_str e2);
                    Reply send_failed_text true]).
        split; [rewrite <- !app_assoc; reflexivity|]. read_trace.
        rewrite Hty, Hp, Ha, Hd.
        repeat split; [now right| |right; now exists send_failed_text].
        right. exists ai. now right.
      * exists ([Typing (effective_chat_id u) true] ++ new1
                ++ [Reply ai false;
                    Log ERROR ("Error sending message back to Telegram: "
                               +:+ exc_str e2);
                    Reply send_failed_text false]).
        split; [rewrite <- !app_assoc; reflexivity|]. read_trace.
        rewrite Hty, Hp, Ha, Hd. repeat split; [now right| |now left].
        right. exists ai. now right.
    + exists ([Typing (effective_chat_id u) true] ++ new1 ++ [Reply ai false]).
      split; [now rewrite <- !app_assoc|]. read_trace.
      rewrite Hty, Hp, Ha, Hd. repeat split; [now right| |now left].
      right. exists ai. now left.
Qed.

(** For a message with a text the handler sends the typing indicator once,
    to the chat of the update; asks the provider at most once, with the
    text as it came in; and tries at most two replies, the second of which
    can only be the fallback text. *)
Theorem handle_message_calls (cfg : Config) (u : Update) (w : World)
    (t : list Event) (um : string) :
  message_text u = Some um ->
  um <> "" ->
  exists new,
    snd (handle_message cfg u w t) = t ++ new
    /\ typing_calls new = [effective_chat_id u]
    /\ (provider_calls new = [] \/ provider_calls new = [um])
    /\ (attempted new = []
        \/ exists ai, attempted new = [ai]
                      \/ attempted new = [ai; send_failed_text]).
Proof.
  intros Hm Hne.
  destruct (handle_message_new cfg u w t um Hm Hne) as [new [H1 [H2 [H3 [H4 _]]]]].
  exists new. auto.
Qed.

Lemma handle_message_calls_witness :
  exists new,
    snd (handle_message Sample.cfg_gemini (Sample.update "hi")
           (Sample.gemini_world
              (mkGenerateContentResponse [Sample.candidate "Hello"] None)
              Sample.first_fails) [])
    = [] ++ new
    /\ typing_calls new = [42]
    /\ (provider_calls new = [] \/ provider_calls new = ["hi"])
    /\ (attempted new = []
        \/ exists ai, attempted new = [ai]
                      \/ attempted new = [ai; send_failed_text]).
Proof.
  apply (handle_message_calls Sample.cfg_gemini (Sample.update "hi")
           (Sample.gemini_world
              (mkGenerateContentResponse [Sample.candidate "Hello"] None)
              Sample.first_fails) [] "hi" eq_refl).
  discriminate.
Defined.

(** When the typing indicator cannot be sent, the handler stops there: the
    error leaves the handler whatever its class, the provider is not asked
    and no reply is tried. *)
Theorem handle_message_typing_fails (cfg : Config) (u : Update) (w : World)
    (t : list Event) (um : string) (e : PyExc) :
  message_text u = Some um ->
  um <> "" ->
  send_chat_action w t (effective_chat_id u) = Raised e ->
  handle_message cfg u w t
  = (Raised e, t ++ [Typing (effective_chat_id u) false]).
Proof.
  intros Hm Hne Hty. unfold_handler. rewrite Hm.
  destruct um as [|c um']; [contradiction|]. cbn [PyStr.truthy negb].
  now rewrite Hty.
Qed.

Lemma handle_message_typing_fails_witness :
  handle_message Sample.cfg_openai (Sample.update "hi")
    (Sample.world (Raised Sample.NetworkError)
       (Returned (Sample.completion "Hello")) (Raised Sample.NetworkError)
       Sample.all_ok) []
  = (Raised Sample.NetworkError, [Typing 42 false]).
Proof.
  refine (handle_message_typing_fails Sample.cfg_openai (Sample.update "hi")
            (Sample.world (Raised Sample.NetworkError)
               (Returned (Sample.completion "Hello")) (Raised Sample.NetworkError)
               Sample.all_ok)
            [] "hi" Sample.NetworkError eq_refl _ eq_refl).
  discriminate.
Defined.

(** When the first send goes through, the reply is what [get_ai_response]
    returned, character for character; nothing more is sent or logged and
    the handler returns. *)
Theorem handle_message_relays (cfg : Config) (u : Update) (w : World)
    (t t2 : list Event) (um ai : string) :
  message_text u = Some um ->
  um <> "" ->
  send_chat_action w t (effective_chat_id u) = Returned tt ->
  get_ai_response cfg um w (t ++ [Typing (effective_chat_id u) true])
  = (Returned ai, t2) ->
  reply_text w t2 ai = Returned tt ->
  handle_message cfg u w t = (Returned tt, t2 ++ [Reply ai true]).
Proof.
  intros Hm Hne Hty Hai Hsend. unfold_handler. rewrite Hm.
  destruct um as [|c um']; [contradiction|]. cbn [PyStr.truthy negb].
  rewrite Hty. cbn [succeeded]. now rewrite Hai, Hsend.
Qed.

Lemma handle_message_relays_witness :
  handle_message Sample.cfg_gemini (Sample.update "hi")
    (Sample.gemini_world
       (mkGenerateContentResponse [Sample.candidate "Hello"] None)
       Sample.all_ok) []
  = (Returned tt,
     [Typing 42 true;
      Log INFO "Sending to AI (gemini): hi...";
      AskGemini "hi";
      Log INFO "AI Response (gemini): Hello..."]
     ++ [Reply "Hello" true]).
Proof.
  refine (handle_message_relays Sample.cfg_gemini (Sample.update "hi")
            (Sample.gemini_world
               (mkGenerateContentResponse [Sample.candidate "Hello"] None)
               Sample.all_ok)
            [] _ "hi" "Hello" eq_refl _ eq_refl eq_refl eq_refl).
  discriminate.
Defined.

(** A send that fails outside [Exception] is not recovered: no error is
    logged, no fallback is tried, and the error leaves the handler. *)
Theorem handle_message_send_interrupted (cfg : Config) (u : Update) (w : World)
    (t t2 : list Event) (um ai : string) (e : PyExc) :
  message_text u = Some um ->
  um <> "" ->
  send_chat_action w t (effective_chat_id u) = Returned tt ->
  get_ai_response cfg um w (t ++ [Typing (effective_chat_id u) true])
  = (Returned ai, t2) ->
  reply_text w t2 ai = Raised e ->
  is_Exception e = false ->
  handle_message cfg u w t = (Raised e, t2 ++ [Reply ai false]).
Proof.
  intros Hm Hne Hty Hai Hsend Hex. unfold_handler. rewrite Hm.
  destruct um as [|c um']; [contradiction|]. cbn [PyStr.truthy negb].
  rewrite Hty. cbn [succeeded]. now rewrite Hai, Hsend, Hex.
Qed.

Lemma handle_message_send_interrupted_witness :
  handle_message Sample.cfg_gemini (Sample.update "hi")
    (Sample.gemini_world
       (mkGenerateContentResponse [Sample.candidate "Hello"] None)
       (fun _ => Raised Sample.CancelledError)) []
  = (Raised Sample.CancelledError,
     [Typing 42 true;
      Log INFO "Sending to AI (gemini): hi...";
      AskGemini "hi";
      Log INFO "AI Response (gemini): Hello..."]
     ++ [Reply "Hello" false]).
Proof.
  refine (handle_message_send_interrupted Sample.cfg_gemini (Sample.update "hi")
            (Sample.gemini_world
               (mkGenerateContentResponse [Sample.candidate "Hello"] None)
               (fun _ => Raised Sample.CancelledError))
            [] _ "hi" "Hello" Sample.CancelledError
            eq_refl _ eq_refl eq_refl eq_refl eq_refl).
  discriminate.
Defined.

(** A failed provider call still gets the user an answer: when the typing
    indicator went out, the provider call raised an [Exception] and the send
    goes through, the one reply delivered is the apology and the handler
    returns. *)
Theorem handle_message_apologises (cfg : Config) (u : Update) (w : World)
    (t : list Event) (um : string) (e : PyExc) :
  message_text u = Some um ->
  um <> "" ->
  send_chat_action w t (effective_chat_id u) = Returned tt ->
  provider_error cfg w (t ++ [Typing (effective_chat_id u) true]) um = Some e ->
  is_Exception e = true ->
  (forall t', reply_text w t' (apology cfg) = Returned tt) ->
  exists new,
    handle_message cfg u w t = (Returned tt, t ++ new)
    /\ delivered new = [apology cfg]
    /\ attempted new = [apology cfg].
Proof.
  intros Hm Hne Hty Herr Hex Hsend.
  destruct (get_ai_response_caught cfg w _ um e Herr Hex) as [Hr _].
  destruct (get_ai_response_new cfg w
              (t ++ [Typing (effective_chat_id u) true]) um)
    as [new1 [Ht [_ [Ha [Hd _]]]]].
  unfold_handler. rewrite Hm.
  destruct um as [|c um']; [contradiction|]. cbn [PyStr.truthy negb].
  rewrite Hty. cbn [succeeded].
  destruct (get_ai_response cfg (String c um') w
              (t ++ [Typing (effective_chat_id u) true])) as [o t2].
  cbn [fst snd] in Hr, Ht. subst o t2. rewrite Hsend.
  exists ([Typing (effective_chat_id u) true] ++ new1
          ++ [Reply (apology cfg) true]).
  split; [now rewrite <- !app_assoc|]. read_trace.
  rewrite Ha, Hd. split; reflexivity.
Qed.

Lemma handle_message_apologises_witness :
  exists new,
    handle_message Sample.cfg_openai (Sample.update "hi")
      (Sample.openai_world (Raised Sample.NetworkError) Sample.all_ok) []
    = (Returned tt, [] ++ new)
    /\ delivered new = [apology Sample.cfg_openai]
    /\ attempted new = [apology Sample.cfg_openai].
Proof.
  refine (handle_message_apologises Sample.cfg_openai (Sample.update "hi")
            (Sample.openai_world (Raised Sample.NetworkError) Sample.all_ok)
            [] "hi" Sample.NetworkError eq_refl _ eq_refl eq_refl eq_refl _).
  - discriminate.
  - intros t'. reflexivity.
Defined.

(** ** main: the whole run *)

Lemma handle_message_no_text (cfg : Config) (u : Update) (w : World)
    (t : list Event) :
  has_text u = false -> handle_message cfg u w t = (Returned tt, t).
Proof.
  unfold has_text, handle_message.
  destruct (message_text u) as [um|]; [|reflexivity].
  now intros ->.
Qed.

Lemma has_text_inv (u : Update) :
  has_text u = true -> exists um, message_text u = Some um /\ um <> "".
Proof.
  unfold has_text. destruct (message_text u) as [um|]; [|discriminate].
  intros H. exists um. split; [reflexivity|]. now apply truthy_not_empty.
Qed.

(** What the handling of one routed update adds to the trace, whether the
    handler returns or raises. *)
Lemma process_routed_new (cfg : Config) (x : Routed) (w : World) (t : list Event) :
  exists new,
    snd (process_routed cfg x w t) = t ++ new
    /\ typing_calls new
       = (if taken_up x then [effective_chat_id (routed_update x)] else [])
    /\ (length (provider_calls new) <= if taken_up x then 1 else 0)%nat
    /\ (length (delivered new) <= if taken_up x then 1 else 0)%nat
    /\ (length (attempted new) <= if taken_up x then 2 else 0)%nat.
Proof.
  unfold process_routed, try_except, error_handler, bind, the_update_str,
    logger_error, emit.
  destruct x as [u|u]; cbn [handle_routed routed_update taken_up].
  - destruct (has_text u) eqn:Hu.
    + destruct (has_text_inv u Hu) as [um [Hm Hne]].
      destruct (handle_message_new cfg u w t um Hm Hne)
        as [new0 [Ht [Hty [Hp [Ha Hd]]]]].
      assert (Hb : (length (provider_calls new0) <= 1)%nat
                   /\ (length (delivered new0) <= 1)%nat
                   /\ (length (attempted new0) <= 2)%nat).
      { destruct Hp as [-> | ->]; destruct Hd as [-> | [b ->]];
          destruct Ha as [-> | [ai [-> | ->]]]; cbn [length]; lia. }
      destruct (handle_message cfg u w t) as [[[]|e] t']; cbn [snd] in Ht; subst t'.
      * exists new0. tauto.
      * destruct (is_Exception e); cbn [snd].
        -- eexists (new0 ++ [Log ERROR _]). split; [now rewrite <- app_assoc|].
           read_trace.
           cbn [typing_calls provider_calls delivered attempted flat_map].
           rewrite !app_nil_r. tauto.
        -- exists new0. tauto.
    + rewrite (handle_message_no_text cfg u w t Hu).
      exists []. rewrite app_nil_r. repeat split; cbn; lia.
  - unfold raise. cbn. eexists [Log ERROR _]. split; [reflexivity|].
    repeat split; cbn; lia.
Qed.

Lemma poll_new (cfg : Config) (inbound : list Routed) (w : World) :
  forall t,
  exists new,
    snd (poll cfg inbound w t) = t ++ new
    /\ (length (typing_calls new) <= length (List.filter taken_up inbound))%nat
    /\ (length (provider_calls new) <= length (List.filter taken_up inbound))%nat
    /\ (length (delivered new) <= length (List.filter taken_up inbound))%nat
    /\ (length (attempted new) <= 2 * length (List.filter taken_up inbound))%nat.
Proof.
  induction inbound as [|x rest IH]; intros t.
  - exists []. rewrite app_nil_r. repeat split; cbn; lia.
  - cbn [poll List.filter]. unfold bind.
    destruct (process_routed_new cfg x w t) as [nu [Ht [Hty [Hp [Hd Ha]]]]].
    assert (Hty' : (length (typing_calls nu) <= if taken_up x then 1 else 0)%nat)
      by (rewrite Hty; destruct (taken_up x); cbn [length]; lia).
    clear Hty.
    destruct (process_routed cfg x w t) as [[[]|e] t1]; cbn [snd] in Ht; subst t1.
    + destruct (IH (t ++ nu)) as [nr [Hr [Rty [Rp [Rd Ra]]]]].
      exists (nu ++ nr). split; [now rewrite Hr, <- app_assoc|].
      read_trace. rewrite !length_app.
      destruct (taken_up x); cbn [length]; lia.
    + exists nu. split; [reflexivity|].
      destruct (taken_up x); cbn [length]; lia.
Qed.

(** [main] is the run over updates that all have a message. *)
Lemma main_is_run (cfg : Config) (inbound : list Update) (w : World)
    (t : list Event) :
  main cfg inbound w t = run cfg (map WithMessage inbound) w t.
Proof.
  unfold main, run, bind, logger_info, emit.
  generalize (t ++ [Log INFO "Starting bot polling..."]). clear t.
  induction inbound as [|u rest IH]; intros t; [reflexivity|].
  cbn [run_polling poll map]. unfold bind.
  change (process_routed cfg (WithMessage u)) with (process_update cfg u).
  destruct (process_update cfg u w t) as [[[]|e] t1]; [apply IH|reflexivity].
Qed.

(** What each routed update costs, and what a whole run costs.  (The
    application hands each routed update to the handler and what the
    handler raises to [error_handler].)  An update that has a message with
    a text causes exactly one typing indicator, to its chat, at most one
    provider call, at most one delivered reply and at most two reply
    attempts; any other update, be it without text or without message,
    causes none of these.  Over a run the totals are bounded by the number
    of updates that have a message with a text. *)
Theorem run_call_budget (cfg : Config) (w : World) :
  (forall x t,
      exists new,
        snd (process_routed cfg x w t) = t ++ new
        /\ typing_calls new
           = (if taken_up x then [effective_chat_id (routed_update x)] else [])
        /\ (length (provider_calls new) <= if taken_up x then 1 else 0)%nat
        /\ (length (delivered new) <= if taken_up x then 1 else 0)%nat
        /\ (length (attempted new) <= if taken_up x then 2 else 0)%nat)
  /\ (forall inbound t,
        exists new,
          snd (run cfg inbound w t) = t ++ new
          /\ (length (typing_calls new)
              <= length (List.filter taken_up inbound))%nat
          /\ (length (provider_calls new)
              <= length (List.filter taken_up inbound))%nat
          /\ (length (delivered new)
              <= length (List.filter taken_up inbound))%nat
          /\ (length (attempted new)
              <= 2 * length (List.filter taken_up inbound))%nat).
Proof.
  split; [intros x t; apply process_routed_new|].
  intros inbound t. unfold run, bind, logger_info, emit.
  destruct (poll_new cfg inbound w
              (t ++ [Log INFO "Starting bot polling..."]))
    as [nr [Hr [Rty [Rp [Rd Ra]]]]].
  exists ([Log INFO "Starting bot polling..."] ++ nr).
  split; [now rewrite Hr, <- app_assoc|].
  read_trace. rewrite !length_app. cbn [length typing_calls provider_calls
    delivered attempted flat_map]. rewrite !app_nil_r. cbn [length]. lia.
Qed.

Lemma get_ai_response_returns_in (cfg : Config) (w : World) (t : list Event)
    (m : string) :
  raises_only_Exceptions w ->
  exists s, fst (get_ai_response cfg m w t) = Returned s.
Proof.
  intros [_ [Ho [Hg _]]].
  destruct (provider_error cfg w t m) as [e|] eqn:He.
  - assert (Hex : is_Exception e = true).
    { unfold provider_error, openai_call, gemini_call in He.
      destruct (AI_PROVIDER cfg).
      - destruct (chat_completions_create w _ (MODEL cfg) m) as [r|e'] eqn:E;
          [discriminate|]. injection He as ->. exact (Ho _ _ _ _ E).
      - destruct (generate_content_async w _ m) as [r|e'] eqn:E;
          [discriminate|]. injection He as ->. exact (Hg _ _ _ E). }
    destruct (get_ai_response_caught cfg w t m e He Hex) as [Hr _]. eauto.
  - unfold provider_error in He. destruct (AI_PROVIDER cfg) eqn:Hp.
    + destruct (openai_call cfg w t m) as [r|e] eqn:Hc; [|discriminate].
      rewrite (get_ai_response_openai cfg w t m r Hp Hc). eauto.
    + destruct (gemini_call cfg w t m) as [r|e] eqn:Hc; [|discriminate].
      rewrite (get_ai_response_gemini cfg w t m r Hp Hc). eauto.
Qed.

Lemma handle_message_raises (cfg : Config) (u : Update) (w : World)
    (t : list Event) (e : PyExc) :
  raises_only_Exceptions w ->
  fst (handle_message cfg u w t) = Raised e -> is_Exception e = true.
Proof.
  intros Hw. pose proof Hw as [Hty [_ [_ Hre]]].
  unfold_handler.
  destruct (message_text u) as [um|]; [|discriminate].
  destruct (PyStr.truthy um); cbn [negb]; [|discriminate].
  destruct (send_chat_action w t (effective_chat_id u)) as [[]|e0] eqn:E0.
  2:{ cbn [fst]. intros [= <-]. exact (Hty _ _ _ E0). }
  cbn [succeeded].
  destruct (get_ai_response_returns_in cfg w
              (t ++ [Typing (effective_chat_id u) true]) um Hw) as [ai Hai].
  destruct (get_ai_response cfg um w (t ++ [Typing (effective_chat_id u) true]))
    as [o t2]. cbn [fst] in Hai. subst o.
  destruct (reply_text w t2 ai) as [[]|e2] eqn:E2; [discriminate|].
  rewrite (Hre _ _ _ E2). cbn [succeeded].
  match goal with |- context [reply_text w ?tr send_failed_text] =>
    destruct (reply_text w tr send_failed_text) as [[]|e3] eqn:E3 end;
    [discriminate|].
  cbn [fst]. intros [= <-]. exact (Hre _ _ _ E3).
Qed.

Lemma process_routed_returns (cfg : Config) (x : Routed) (w : World)
    (t : list Event) :
  raises_only_Exceptions w ->
  fst (process_routed cfg x w t) = Returned tt.
Proof.
  intros Hw.
  unfold process_routed, try_except, error_handler, bind, the_update_str,
    logger_error, emit.
  destruct x as [u|u]; cbn [handle_routed routed_update]; [|reflexivity].
  pose proof (handle_message_raises cfg u w t) as Hr.
  destruct (handle_message cfg u w t) as [[[]|e] t']; [reflexivity|].
  now rewrite (Hr e Hw eq_refl).
Qed.

(** No failure of a provider or of Telegram, and no update without a
    message, stops the bot: in a world whose calls raise nothing outside
    [Exception], the run returns after having taken up every routed update,
    and the typing indicators sent are, in order, those for the chats of
    the updates that have a message with a text.  (The application hands
    each routed update to the handler and what the handler raises to
    [error_handler].) *)
Theorem run_keeps_polling (cfg : Config) (inbound : list Routed) (w : World)
    (t : list Event) :
  raises_only_Exceptions w ->
  fst (run cfg inbound w t) = Returned tt
  /\ exists new,
      snd (run cfg inbound w t) = t ++ new
      /\ typing_calls new
         = map (fun x => effective_chat_id (routed_update x))
             (List.filter taken_up inbound).
Proof.
  intros Hw.
  assert (Hrun : forall xs t0,
             fst (poll cfg xs w t0) = Returned tt
             /\ exists new,
                 snd (poll cfg xs w t0) = t0 ++ new
                 /\ typing_calls new
                    = map (fun x => effective_chat_id (routed_update x))
                        (List.filter taken_up xs)).
  { induction xs as [|x rest IH]; intros t0.
    - split; [reflexivity|]. exists []. now rewrite app_nil_r.
    - cbn [poll List.filter]. unfold bind.
      pose proof (process_routed_returns cfg x w t0 Hw) as Hret.
      destruct (process_routed_new cfg x w t0) as [nu [Ht [Hty _]]].
      destruct (process_routed cfg x w t0) as [o t1].
      cbn [fst snd] in Hret, Ht. subst o t1.
      destruct (IH (t0 ++ nu)) as [Hf [nr [Hs Hn]]].
      split; [exact Hf|]. exists (nu ++ nr).
      split; [now rewrite Hs, <- app_assoc|].
      rewrite typing_calls_app, Hty, Hn.
      destruct (taken_up x); reflexivity. }
  unfold run, bind, logger_info, emit.
  destruct (Hrun inbound (t ++ [Log INFO "Starting bot polling..."]))
    as [Hf [nr [Hs Hn]]].
  split; [exact Hf|].
  exists ([Log INFO "Starting bot polling..."] ++ nr).
  split; [now rewrite Hs, <- app_assoc|].
  now rewrite typing_calls_app, Hn.
Qed.

Lemma run_keeps_polling_witness :
  fst (run Sample.cfg_gemini
         [WithMessage (Sample.update "a"); WithoutMessage (Sample.update "b");
          WithMessage (Sample.update ""); WithMessage (Sample.update "c")]
         (Sample.gemini_world (mkGenerateContentResponse [] None) Sample.all_fail)
         [])
  = Returned tt
  /\ exists new,
      snd (run Sample.cfg_gemini
             [WithMessage (Sample.update "a"); WithoutMessage (Sample.update "b");
              WithMessage (Sample.update ""); WithMessage (Sample.update "c")]
             (Sample.gemini_world (mkGenerateContentResponse [] None)
                Sample.all_fail) [])
      = [] ++ new
      /\ typing_calls new
         = map (fun x => effective_chat_id (routed_update x))
             (List.filter taken_up
                [WithMessage (Sample.update "a");
                 WithoutMessage (Sample.update "b");
                 WithMessage (Sample.update ""); WithMessage (Sample.update "c")]).
Proof.
  apply (run_keeps_polling Sample.cfg_gemini
           [WithMessage (Sample.update "a"); WithoutMessage (Sample.update "b");
            WithMessage (Sample.update ""); WithMessage (Sample.update "c")]
           (Sample.gemini_world (mkGenerateContentResponse [] None)
              Sample.all_fail) []).
  unfold raises_only_Exceptions, Sample.gemini_world, Sample.world,
    Sample.all_fail.
  cbn. repeat split; intros; try discriminate;
    match goal with H : Raised _ = Raised _ |- _ =>
      injection H as <-; reflexivity end.
Defined.

(** ** start_command *)

Lemma contains_head (sub post : string) :
  PyStr.contains sub (sub +:+ post) = true.
Proof. exact (contains_append "" sub post). Qed.

Lemma contains_skip (pre sub s : string) :
  PyStr.contains sub s = true -> PyStr.contains sub (pre +:+ s) = true.
Proof.
  intros H. induction pre as [|c pre IH]; [exact H|].
  rewrite append_cons. cbn [PyStr.contains]. rewrite IH. apply orb_true_r.
Qed.

(** The start command never asks the AI provider and sends no typing
    indicator.  On an update with a message and a user it makes one
    [reply_html] call, whose text holds the user's mention and the
    provider's name as [capitalize] writes it, and it ends as that call
    ends, a failure included.  On an update without a message or without a
    user it raises an [Exception] and sends nothing. *)
Theorem start_command_greets (cfg : Config) (u : StartUpdate)
    (reply_html : list Event -> string -> Outcome unit) (w : World)
    (t : list Event) :
  let r := start_command cfg u reply_html w t in
  provider_calls (snd r) = provider_calls t
  /\ typing_calls (snd r) = typing_calls t
  /\ match start_has_message u, start_mention u with
     | true, Some mention =>
         exists body,
           attempted (snd r) = attempted t ++ [body]
           /\ fst r = reply_html t body
           /\ PyStr.contains mention body = true
           /\ PyStr.contains (match AI_PROVIDER cfg with
                              | openai => "Openai"
                              | gemini => "Gemini"
                              end) body = true
     | _, _ =>
         snd r = t /\ exists e, fst r = Raised e /\ is_Exception e = true
     end.
Proof.
  intros r. subst r. unfold start_command, await_reply_html, raise.
  destruct (start_has_message u); cbn [negb].
  2:{ repeat split. now exists AttributeError_reply_html. }
  destruct (start_mention u) as [mention|].
  2:{ repeat split. now exists AttributeError_mention_html. }
  cbn [fst snd]. rewrite provider_calls_app, typing_calls_app, attempted_app.
  split; [cbn; apply app_nil_r|]. split; [cbn; apply app_nil_r|].
  exists (greeting cfg mention). split; [reflexivity|]. split; [reflexivity|].
  split.
  - unfold greeting. apply contains_skip, contains_head.
  - unfold greeting. destruct (AI_PROVIDER cfg);
      do 6 apply contains_skip; apply contains_head.
Qed.
